(** * Upload handlers of learn-file-storage-s3-golang-starter

    Shallow embedding of [handler_upload_thumbnail.go]: the thumbnail
    upload handler, the video upload handler and its two sub-routines
    [getVideoAspectRatio] and [processVideoForFastStart].

    External collaborators (uuid parsing, bearer token extraction, JWT
    validation, MIME parsing, JSON decoding) are pure library functions
    gathered in the record [lib]; the outcomes of I/O calls (multipart
    parsing, files, randomness, subprocesses, S3, database writes) come
    from the per-request oracle record [io].  The metadata store is a
    [gmap] from video id to video record; every other effect is recorded
    in an event log. *)

From Stdlib Require Import String Ascii ZArith List Lia.
From stdpp Require Import base gmap strings list.

Local Open Scope string_scope.
Import ListNotations.

(* ------------------------------------------------------------------ *)
(** ** Data model *)

(** [database.Video], restricted to the fields the handlers use. *)
Record video := mkVideo {
  v_ID : string;
  v_UserID : string;
  v_ThumbnailURL : option string;
  v_VideoURL : option string
}.

(** [apiConfig]: the fields read by the handlers. *)
Record apiConfig := mkConfig {
  cfg_jwtSecret : string;
  cfg_assetsRoot : string;
  cfg_port : string;
  cfg_s3Bucket : string;
  cfg_s3CfDistribution : string
}.

(** An [io.Reader] over the request body: the raw body of [n] bytes, or
    the reader returned by [http.MaxBytesReader], which stops after its
    limit. *)
Inductive reader :=
| Body (n : Z)
| MaxBytes (limit : Z) (inner : reader).

(** Bytes a consumer can read from a reader before it stops. *)
Fixpoint readable (rd : reader) : Z :=
  match rd with
  | Body n => n
  | MaxBytes lim inner => Z.min lim (readable inner)
  end.

(** [http.MaxBytesReader(w, r, n)] returns a new reader; it does not
    modify [r]. *)
Definition MaxBytesReader (rd : reader) (n : Z) : reader := MaxBytes n rd.

(** A file of a multipart form and its header. *)
Record form_file := mkFormFile {
  ff_Filename : string;
  ff_ContentType : string;     (** header.Header.Get("Content-Type") *)
  ff_data : list Byte.byte
}.

(** An HTTP request: path value [videoID], the Authorization header, the
    body reader and the files of its multipart form, by field name. *)
Record request := mkRequest {
  req_videoID : string;
  req_Authorization : string;
  req_Body : reader;
  req_files : list (string * form_file)
}.

(** One stream object of the ffprobe JSON output; [None] is an absent key. *)
Record json_stream := mkJsonStream {
  js_width : option Z;
  js_height : option Z;
  js_display_aspect_ratio : option string
}.

(** The ffprobe JSON document: the ["streams"] key, absent or an array. *)
Record json_probe := mkJsonProbe { jp_streams : option (list json_stream) }.

(** The Go struct the JSON is decoded into: absent keys get zero values. *)
Record probe_stream := mkProbeStream {
  Width : Z;
  Height : Z;
  DisplayAspectRatio : string
}.

Definition decode_stream (s : json_stream) : probe_stream :=
  mkProbeStream (default 0%Z (js_width s)) (default 0%Z (js_height s))
    (default "" (js_display_aspect_ratio s)).

Definition decode_streams (p : json_probe) : list probe_stream :=
  map decode_stream (default [] (jp_streams p)).

(** Outcome of [exec.Cmd.Run]: the process exited with a status, or it
    could not be started (binary missing, ...). *)
Inductive exec_outcome :=
| Exited (code : Z)
| StartFailed.

Record exec_result := mkExecResult {
  ex_outcome : exec_outcome;
  ex_stdout : string
}.

(** [command.Run()] returns a nil error exactly on a zero exit status. *)
Definition run_err (o : exec_outcome) : bool :=
  match o with
  | Exited 0 => false
  | _ => true
  end.

(** Pure library functions the handlers call. *)
Record lib := mkLib {
  uuid_Parse : string -> option string;
  GetBearerToken : string -> option string;
  ValidateJWT : string -> string -> option string;   (** token, secret *)
  ParseMediaType : string -> option string;
  json_Unmarshal : string -> option json_probe
}.

(** Outcomes of the I/O calls of one request. *)
Record io := mkIO {
  io_parse_form_err : bool;            (** r.ParseMultipartForm error *)
  io_form_ok : bool;                   (** multipart body well formed *)
  io_read_ok : bool;                   (** io.ReadAll *)
  io_rand_ok : bool;                   (** rand.Read *)
  io_entropy : nat -> Byte.byte;       (** bytes rand.Read delivers *)
  io_create_ok : bool;                 (** os.Create *)
  io_copy_limit : option Z;            (** io.Copy into the asset file stops
                                           with an error after so many bytes *)
  io_update_ok : bool;                 (** cfg.db.UpdateVideo *)
  io_temp_ok : bool;                   (** os.CreateTemp *)
  io_temp_name : string;
  io_temp_copy_ok : bool;              (** io.Copy into the temp file *)
  io_exec : list string -> exec_result;  (** subprocesses, by argv *)
  io_open_ok : bool;                   (** os.OpenFile *)
  io_put_ok : bool                     (** s3 PutObject *)
}.

(** Go's [(T, error)] results. *)
Inductive goresult (A : Type) :=
| Ok (a : A)
| Err (msg : string).
Arguments Ok {A} a.
Arguments Err {A} msg.

(** HTTP responses: [respondWithError] and [respondWithJSON]. *)
Inductive resp_body :=
| RError (msg : string)
| RJsonEmpty                 (** struct{}{} *)
| RJsonVideo (v : video).

Record response := Respond { resp_status : Z; resp_body_of : resp_body }.

(** Effects other than the metadata store. *)
Inductive event :=
| EvBodyRead (n : Z)                         (** bytes the form parser consumed *)
| EvCreate (path : string)                   (** os.Create in the assets root *)
| EvWrite (path : string) (n : Z)            (** io.Copy wrote n bytes there *)
| EvCreateTemp (path : string)               (** os.CreateTemp *)
| EvExec (argv : list string)                (** exec.Command(...).Run() *)
| EvPut (bucket key content_type : string).  (** s3 PutObject *)

(** The world a handler runs against: the metadata store and the log. *)
Record world := mkWorld {
  w_db : gmap string video;
  w_log : list event
}.

(* ------------------------------------------------------------------ *)
(** ** A state monad with early return *)

(** A handler step either returns early with a response (the
    [respondWithError(...); return] pattern) or continues with a value. *)
Definition M (A : Type) : Type := world -> (response + A) * world.

Definition ret {A} (a : A) : M A := fun w => (inr a, w).

Definition bind {A B} (m : M A) (k : A -> M B) : M B :=
  fun w => match m w with
           | (inl r, w') => (inl r, w')
           | (inr a, w') => k a w'
           end.

Notation "x <- m ;; k" := (bind m (fun x => k))
  (at level 100, m at next level, right associativity).
Notation "m ;;; k" := (bind m (fun _ => k))
  (at level 100, right associativity).

Definition respondWithError {A} (code : Z) (msg : string) : M A :=
  fun w => (inl (Respond code (RError msg)), w).

Definition emit (e : event) : M unit :=
  fun w => (inr tt, mkWorld (w_db w) (w_log w ++ [e])%list).

(** [x, err := f(); if err != nil { respondWithError(code, msg); return }] *)
Definition check {A} (o : option A) (code : Z) (msg : string) : M A :=
  match o with
  | Some a => ret a
  | None => respondWithError code msg
  end.

Definition check_go {A} (r : goresult A) (code : Z) (msg : string) : M A :=
  match r with
  | Ok a => ret a
  | Err _ => respondWithError code msg
  end.

Definition guard (b : bool) (code : Z) (msg : string) : M unit :=
  if b then ret tt else respondWithError code msg.

(** Running a handler: its response, whether written early or last. *)
Definition run (h : M response) (w : world) : response * world :=
  match h w with
  | (inl r, w') => (r, w')
  | (inr r, w') => (r, w')
  end.

(* ------------------------------------------------------------------ *)
(** ** Library functions written out *)

(** [base64.URLEncoding] alphabet (RFC 4648, section 5). *)
Definition b64_alphabet : string :=
  "ABCDEFGHIJKLMNOPQRSTUVWXYZabcdefghijklmnopqrstuvwxyz0123456789-_".

Definition b64_char (i : Z) : string :=
  match String.get (Z.to_nat i) b64_alphabet with
  | Some c => String c EmptyString
  | None => "A"
  end.

Definition bz (b : Byte.byte) : Z := Z.of_N (Byte.to_N b).

(** Four sextets of a 24-bit group, the last [k] of them dropped. *)
Definition b64_group (n : Z) (k : nat) : string :=
  let s := [Z.land (Z.shiftr n 18) 63; Z.land (Z.shiftr n 12) 63;
            Z.land (Z.shiftr n 6) 63; Z.land n 63] in
  fold_right String.append "" (map b64_char (firstn (4 - k) s)).

(** The encoder of [base64.Encoding]; [pad] selects [URLEncoding]
    (padding '=') against [RawURLEncoding] (no padding). *)
Fixpoint b64_encode (pad : bool) (l : list Byte.byte) : string :=
  match l with
  | b0 :: b1 :: b2 :: rest =>
      b64_group (Z.lor (Z.shiftl (bz b0) 16) (Z.lor (Z.shiftl (bz b1) 8) (bz b2))) 0
      ++ b64_encode pad rest
  | [b0; b1] =>
      b64_group (Z.lor (Z.shiftl (bz b0) 16) (Z.shiftl (bz b1) 8)) 1
      ++ (if pad then "=" else "")
  | [b0] => b64_group (Z.shiftl (bz b0) 16) 2 ++ (if pad then "==" else "")
  | [] => ""
  end.

Definition URLEncoding_EncodeToString := b64_encode true.
Definition RawURLEncoding_EncodeToString := b64_encode false.

(** [strings.Split(s, sep)] for a one-character separator. *)
Fixpoint split_acc (sep : ascii) (s : string) (cur : string) : list string :=
  match s with
  | EmptyString => [cur]
  | String c rest =>
      if Ascii.eqb c sep then cur :: split_acc sep rest ""
      else split_acc sep rest (cur ++ String c EmptyString)
  end.

Definition strings_Split (s : string) (sep : ascii) : list string :=
  split_acc sep s "".

(** [filepath.Join(root, name)] for a name without separators; the
    final [filepath.Clean] of the root is not modelled. *)
Definition filepath_Join (root name : string) : string :=
  if String.eqb root "" then name else root ++ "/" ++ name.

(** [rand.Read(b)] on a buffer of [n] bytes fills all of it or fails. *)
Definition rand_Read (o : io) (n : nat) : goresult (list Byte.byte) :=
  if io_rand_ok o then Ok (map (io_entropy o) (seq 0 n))
  else Err "rand failure".

(* ------------------------------------------------------------------ *)
(** ** I/O primitives *)

(** [x, err := call(); if err != nil { respondWithError(code, msg); return }]
    for a call with effects. *)
Definition try {A} (m : M (goresult A)) (code : Z) (msg : string) : M A :=
  r <- m ;; check_go r code msg.

(** [exec.Command(argv...).Run()], with its captured stdout. *)
Definition exec_Run (o : io) (argv : list string) : M exec_result :=
  emit (EvExec argv) ;;; ret (io_exec o argv).

(** [r.ParseMultipartForm(maxMemory)]: consumes the request body through
    [r.Body]; the error it returns covers a malformed multipart body and a
    malformed URL query (the latter with the form parsed). *)
Definition ParseMultipartForm (o : io) (r : request) : M bool :=
  emit (EvBodyRead (readable (req_Body r))) ;;;
  ret (io_parse_form_err o || negb (io_form_ok o)).

Fixpoint lookup_file (field : string) (fs : list (string * form_file))
  : option form_file :=
  match fs with
  | [] => None
  | (k, f) :: rest => if String.eqb k field then Some f else lookup_file field rest
  end.

(** [r.FormFile(field)] once the form has been parsed. *)
Definition form_lookup (o : io) (r : request) (field : string) : goresult form_file :=
  if io_form_ok o then
    match lookup_file field (req_files r) with
    | Some f => Ok f
    | None => Err "http: no such file"
    end
  else Err "multipart: malformed body".

(** [r.FormFile(field)] on a request whose form is not parsed yet: it
    parses it first and fails on the parse error. *)
Definition FormFile (o : io) (r : request) (field : string) : M (goresult form_file) :=
  e <- ParseMultipartForm o r ;;
  ret (if e then Err "form parse error" else form_lookup o r field).

Definition ReadAll (o : io) (f : form_file) : goresult (list Byte.byte) :=
  if io_read_ok o then Ok (ff_data f) else Err "read error".

(** [cfg.db.GetVideo(id)]. *)
Definition GetVideo (id : string) : M (goresult video) :=
  fun w => (inr (match w_db w !! id with
                 | Some v => Ok v
                 | None => Err "sql: no rows in result set"
                 end), w).

(** [cfg.db.UpdateVideo(v)]: rewrites the row of [v]; a failed update
    leaves the store as it was. *)
Definition UpdateVideo (o : io) (v : video) : M (goresult unit) :=
  fun w => if io_update_ok o
           then (inr (Ok tt), mkWorld (<[v_ID v := v]> (w_db w)) (w_log w))
           else (inr (Err "update failed"), w).

Definition os_Create (o : io) (path : string) : M (goresult unit) :=
  if io_create_ok o then emit (EvCreate path) ;;; ret (Ok tt)
  else ret (Err "create failed").

(** [io.Copy(dst, src)] of [data] into the file at [path]: it writes all
    of it, or stops with an error after [io_copy_limit] bytes. *)
Definition io_Copy (o : io) (path : string) (data : list Byte.byte) : M (goresult Z) :=
  let len := Z.of_nat (length data) in
  let n := match io_copy_limit o with Some k => Z.min k len | None => len end in
  emit (EvWrite path n) ;;;
  ret (if Z.eqb n len then Ok n else Err "short write").

Definition os_CreateTemp (o : io) : M (goresult string) :=
  if io_temp_ok o then emit (EvCreateTemp (io_temp_name o)) ;;; ret (Ok (io_temp_name o))
  else ret (Err "createtemp failed").

Definition copy_to_temp (o : io) : goresult Z :=
  if io_temp_copy_ok o then Ok 0%Z else Err "copy failed".

Definition os_OpenFile (o : io) (path : string) : goresult string :=
  if io_open_ok o then Ok path else Err "open failed".

Definition PutObject (o : io) (bucket key content_type : string) : M (goresult unit) :=
  if io_put_ok o then emit (EvPut bucket key content_type) ;;; ret (Ok tt)
  else ret (Err "put failed").

(* ------------------------------------------------------------------ *)
(** ** Sub-routines of the video handler *)

Definition ffprobe_argv (filePath : string) : list string :=
  ["ffprobe"; "-v"; "error"; "-print_format"; "json"; "-show_streams"; filePath].

(** [getVideoAspectRatio]. *)
Definition getVideoAspectRatio (L : lib) (o : io) (filePath : string)
  : M (goresult string) :=
  res <- exec_Run o (ffprobe_argv filePath) ;;
  ret (if run_err (ex_outcome res) then Err "exit status"
       else match json_Unmarshal L (ex_stdout res) with
            | None => Err "invalid json"
            | Some out =>
                match decode_streams out with
                | [] => Err "No streams found"
                | s :: _ => Ok (DisplayAspectRatio s)
                end
            end).

Definition ffmpeg_argv (filePath tmpName : string) : list string :=
  ["ffmpeg"; "-i"; filePath; "-c"; "copy"; "-movflags"; "faststart";
   "-f"; "mp4"; tmpName].

(** [processVideoForFastStart]. *)
Definition processVideoForFastStart (o : io) (filePath : string) : M (goresult string) :=
  let tmpName := filePath ++ ".processing" in
  res <- exec_Run o (ffmpeg_argv filePath tmpName) ;;
  ret (if run_err (ex_outcome res) then Err "exit status" else Ok tmpName).

(** The [switch aspectRation] choosing the S3 prefix, from ["other"]. *)
Definition aspect_prefix (aspectRation : string) : string :=
  if String.eqb aspectRation "16:9" then "landscape"
  else if String.eqb aspectRation "9:16" then "portrait"
  else "other".

(* ------------------------------------------------------------------ *)
(** ** The handlers *)

Definition set_ThumbnailURL (v : video) (url : string) : video :=
  mkVideo (v_ID v) (v_UserID v) (Some url) (v_VideoURL v).

Definition set_VideoURL (v : video) (url : string) : video :=
  mkVideo (v_ID v) (v_UserID v) (v_ThumbnailURL v) (Some url).

(** The public URL of a thumbnail (line 114). *)
Definition thumbnail_URL (cfg : apiConfig) (fileName : string) : string :=
  "http://localhost:" ++ cfg_port cfg ++ "/assets/" ++ fileName.

(** [handlerUploadThumbnail]. *)
Definition handlerUploadThumbnail (cfg : apiConfig) (L : lib) (o : io)
    (r : request) : M response :=
  videoID <- check (uuid_Parse L (req_videoID r)) 400 "Invalid ID" ;;
  token <- check (GetBearerToken L (req_Authorization r)) 401 "Couldn't find JWT" ;;
  userID <- check (ValidateJWT L token (cfg_jwtSecret cfg)) 401 "Couldn't validate JWT" ;;
  (* const maxMemory = 10 << 20; r.ParseMultipartForm(maxMemory): error dropped *)
  _ <- ParseMultipartForm o r ;;
  file <- check_go (form_lookup o r "thumbnail") 400 "Unable to parse form file" ;;
  let ContentType := ff_ContentType file in
  data <- check_go (ReadAll o file) 500 "Couldn't read file" ;;
  VideoMeta <- try (GetVideo videoID) 500 "Couldn't get video" ;;
  guard (String.eqb (v_UserID VideoMeta) userID) 401 "Not your video" ;;;
  mediaType <- check (ParseMediaType L ContentType) 400 "Invalid media type" ;;
  guard (String.eqb mediaType "image/jpeg" || String.eqb mediaType "image/png")
    400 "Invalid media type" ;;;
  let parts := strings_Split mediaType "/" in
  guard (Nat.eqb (length parts) 2) 400 "Invalid media type" ;;;
  let extension := nth 1 parts "" in
  randomBytes <- check_go (rand_Read o 32) 500 "Couldn't generate random bytes" ;;
  let name := RawURLEncoding_EncodeToString randomBytes in
  let fileName := name ++ "." ++ extension in
  let filePath := filepath_Join (cfg_assetsRoot cfg) fileName in
  try (os_Create o filePath) 500 "Couldn't create file" ;;;
  (* io.Copy(filePoint, ...): result and error dropped *)
  _ <- io_Copy o filePath data ;;
  let thumbnailURL := thumbnail_URL cfg fileName in
  let VideoMeta' := set_ThumbnailURL VideoMeta thumbnailURL in
  try (UpdateVideo o VideoMeta') 500 "Couldn't update video" ;;;
  ret (Respond 200 RJsonEmpty).

(** [handlerUploadVideo].  Deferred closes and removals of the temporary
    files are not modelled; [tmpFile.Seek] cannot fail on a regular file
    and its error is dropped in the source. *)
Definition handlerUploadVideo (cfg : apiConfig) (L : lib) (o : io)
    (r : request) : M response :=
  (* http.MaxBytesReader(w, r.Body, 1<<30): the result is not stored *)
  let _ := MaxBytesReader (req_Body r) (Z.shiftl 1 30) in
  videoID <- check (uuid_Parse L (req_videoID r)) 400 "Invalid ID" ;;
  token <- check (GetBearerToken L (req_Authorization r)) 401 "Couldn't find JWT" ;;
  userID <- check (ValidateJWT L token (cfg_jwtSecret cfg)) 401 "Couldn't validate JWT" ;;
  videoDb <- try (GetVideo videoID) 500 "Couldn't get video" ;;
  guard (String.eqb (v_UserID videoDb) userID) 401 "User does not own video" ;;;
  file <- try (FormFile o r "video") 400 "Unable to parse form file" ;;
  mediaType <- check (ParseMediaType L (ff_ContentType file)) 400 "Invalid media type" ;;
  guard (String.eqb mediaType "video/mp4") 400 "Invalid media type" ;;;
  tmpFile <- try (os_CreateTemp o) 500 "Couldn't create temp file" ;;
  _ <- check_go (copy_to_temp o) 500 "Couldn't save file" ;;
  aspectRation <- try (getVideoAspectRatio L o tmpFile) 500
                    "Couldn't get video aspect ratio" ;;
  let prefix := aspect_prefix aspectRation in
  processedFileName <- try (processVideoForFastStart o tmpFile) 500
                         "Couldn't process video" ;;
  _ <- check_go (os_OpenFile o processedFileName) 500 "Couldn't process video" ;;
  randomBites <- check_go (rand_Read o 32) 500 "Couldn't generate random bytes" ;;
  let name := URLEncoding_EncodeToString randomBites in
  let fileName := prefix ++ "/" ++ name ++ ".mp4" in
  try (PutObject o (cfg_s3Bucket cfg) fileName mediaType) 500
    "Couldn't upload file to S3" ;;;
  let videoUrl := cfg_s3CfDistribution cfg ++ "/" ++ fileName in
  let videoDb' := set_VideoURL videoDb videoUrl in
  try (UpdateVideo o videoDb') 500 "Couldn't update video" ;;;
  ret (Respond 200 (RJsonVideo videoDb')).

(* ------------------------------------------------------------------ *)
(** ** Concrete inputs *)

Definition cfg0 : apiConfig :=
  mkConfig "secret" "assets" "8091" "tubely-bucket" "https://d1.cloudfront.net".

(** Library functions where the token is the user id, every header is a
    well formed media type and ffprobe's output decodes to [probe]. *)
Definition lib0 (probe : json_probe) : lib :=
  mkLib (fun s => Some s) (fun h => Some h) (fun t _ => Some t)
    (fun s => Some s) (fun _ => Some probe).

Definition probe_of (dars : list (option string)) : json_probe :=
  mkJsonProbe (Some (map (fun d => mkJsonStream (Some 1920%Z) (Some 1080%Z) d) dars)).

(** Every I/O call succeeds. *)
Definition io0 : io :=
  mkIO false true true true (fun _ => Byte.x2a) true None true
    true "/tmp/video.mp4123" true (fun _ => mkExecResult (Exited 0) "{}") true true.

Definition thumb_file (ct : string) : form_file :=
  mkFormFile "holiday.png" ct [Byte.x89; Byte.x50; Byte.x4e; Byte.x47].

Definition video_file (ct : string) : form_file :=
  mkFormFile "holiday.mp4" ct [Byte.x00; Byte.x00; Byte.x00; Byte.x18].

Definition req0 (auth : string) (body : Z) (ct : string) : request :=
  mkRequest "vid1" auth (Body body)
    [("thumbnail", thumb_file ct); ("video", video_file ct)].

Definition video0 : video := mkVideo "vid1" "user1" None None.

Definition world0 : world := mkWorld {[ "vid1" := video0 ]} [].

(** I/O outcomes where ParseMultipartForm reports an error (a malformed
    URL query next to a well formed multipart body) and the disk accepts
    no byte of the thumbnail; every other call succeeds. *)
Definition io_short_write : io :=
  mkIO true true true true (fun _ => Byte.x2a) true (Some 0%Z) true
    true "/tmp/video.mp4123" true (fun _ => mkExecResult (Exited 0) "{}") true true.

(** Modelled from the spec (section 6): the thumbnail URL built from a
    configured host and port, [http://<host>:<port>/assets/<file>]. *)
Definition spec_thumbnail_URL (host port fileName : string) : string :=
  "http://" ++ host ++ ":" ++ port ++ "/assets/" ++ fileName.

(* ------------------------------------------------------------------ *)
(** ** Proof automation *)

Ltac unfold_handler :=
  cbv beta iota zeta delta [run handlerUploadThumbnail handlerUploadVideo bind
    check check_go try guard ret respondWithError emit ParseMultipartForm ReadAll
    FormFile GetVideo UpdateVideo os_Create io_Copy os_CreateTemp PutObject
    copy_to_temp os_OpenFile getVideoAspectRatio processVideoForFastStart
    exec_Run].

(** Split on every branch point of the straight-line handler code,
    innermost scrutinee first. *)
Ltac split_branches :=
  repeat (cbn beta iota zeta;
          match goal with
          | |- context [match ?x with _ => _ end] =>
              lazymatch x with
              | context [match _ with _ => _ end] => fail
              | _ => let E := fresh "E" in destruct x eqn:E
              end
          end).

(** Close a branch that returns early although the hypothesis [H] says
    the checks before the one of interest pass. *)
Ltac refute_early H :=
  simpl in *; destruct H as (? & ? & ? & ? & H);
  repeat match goal with
         | H : _ /\ _ |- _ => destruct H
         | H : exists _, _ |- _ => destruct H
         | H : String.eqb _ _ = false |- _ => apply String.eqb_neq in H
         | H : io_parse_form_err _ = false |- _ => rewrite H in *; clear H
         | H : io_form_ok _ = true |- _ => rewrite H in *; clear H
         end; simpl in *; congruence.

(* ------------------------------------------------------------------ *)
(** ** Predicates on runs *)

(** The checks of the thumbnail handler before the media type check
    all pass. *)
Definition thumbnail_passes_early_checks (cfg : apiConfig) (L : lib) (o : io)
    (r : request) (w : world) : Prop :=
  exists videoID token userID f v,
    uuid_Parse L (req_videoID r) = Some videoID /\
    GetBearerToken L (req_Authorization r) = Some token /\
    ValidateJWT L token (cfg_jwtSecret cfg) = Some userID /\
    form_lookup o r "thumbnail" = Ok f /\
    io_read_ok o = true /\
    w_db w !! videoID = Some v /\ v_UserID v = userID.

(** The media type of the uploaded file is refused by the thumbnail
    handler: unparsable, or neither image/jpeg nor image/png. *)
Definition not_image_type (L : lib) (f : form_file) : Prop :=
  match ParseMediaType L (ff_ContentType f) with
  | None => True
  | Some mt => mt <> "image/jpeg" /\ mt <> "image/png"
  end.

(** The video handler's checks before the media type check all pass. *)
Definition video_passes_early_checks (cfg : apiConfig) (L : lib) (o : io)
    (r : request) (w : world) : Prop :=
  exists videoID token userID v,
    uuid_Parse L (req_videoID r) = Some videoID /\
    GetBearerToken L (req_Authorization r) = Some token /\
    ValidateJWT L token (cfg_jwtSecret cfg) = Some userID /\
    w_db w !! videoID = Some v /\ v_UserID v = userID /\
    io_parse_form_err o = false /\ io_form_ok o = true.

(** The video handler gets as far as probing the temporary file. *)
Definition video_reaches_probe (cfg : apiConfig) (L : lib) (o : io)
    (r : request) (w : world) : Prop :=
  video_passes_early_checks cfg L o r w /\
  exists f, form_lookup o r "video" = Ok f /\
    ParseMediaType L (ff_ContentType f) = Some "video/mp4" /\
    io_temp_ok o = true /\ io_temp_copy_ok o = true.

(** What ffprobe reports on [path]: the decoded streams, when it exits
    with status zero and its output is valid JSON. *)
Definition probe_streams (L : lib) (o : io) (path : string)
    : option (list probe_stream) :=
  let res := io_exec o (ffprobe_argv path) in
  if run_err (ex_outcome res) then None
  else option_map decode_streams (json_Unmarshal L (ex_stdout res)).

Definition put_key (e : event) : option string :=
  match e with EvPut _ k _ => Some k | _ => None end.

(** An event that writes a file in the assets root. *)
Definition asset_write (e : event) : bool :=
  match e with EvCreate _ | EvWrite _ _ => true | _ => false end.

Definition temp_create (e : event) : bool :=
  match e with EvCreateTemp _ => true | _ => false end.

(** Characters of the URL-safe base64 alphabet. *)
Definition url_safe_char (c : ascii) : bool :=
  let n := nat_of_ascii c in
  (Nat.leb 65 n && Nat.leb n 90) || (Nat.leb 97 n && Nat.leb n 122) ||
  (Nat.leb 48 n && Nat.leb n 57) || Nat.eqb n 45 || Nat.eqb n 95.

Fixpoint all_chars (p : ascii -> bool) (s : string) : bool :=
  match s with
  | EmptyString => true
  | String c rest => p c && all_chars p rest
  end.

(** Every uploaded file of the request renamed to [n] by the client. *)
Definition with_filename (n : string) (r : request) : request :=
  mkRequest (req_videoID r) (req_Authorization r) (req_Body r)
    (map (fun kf => (fst kf, mkFormFile n (ff_ContentType (snd kf)) (ff_data (snd kf))))
         (req_files r)).

(* ------------------------------------------------------------------ *)
(** ** Helper lemmas *)

Lemma image_type_cases (mt : string) :
  (String.eqb mt "image/jpeg" || String.eqb mt "image/png")%bool = true ->
  mt = "image/jpeg" \/ mt = "image/png".
Proof.
  intros H. apply orb_true_iff in H.
  destruct H as [H | H]; apply String.eqb_eq in H; auto.
Qed.

Lemma mp4_type (mt : string) : String.eqb mt "video/mp4" = true -> mt = "video/mp4".
Proof. apply String.eqb_eq. Qed.

Lemma filter_app_singleton (p : event -> bool) (l : list event) (e : event) :
  p e = false -> List.filter p (l ++ [e])%list = List.filter p l.
Proof.
  intros He. rewrite List.filter_app. simpl. rewrite He. apply app_nil_r.
Qed.

(* ------------------------------------------------------------------ *)
(** ** Content-type validation *)

(** C4 (amended): when the media type of the uploaded thumbnail is
    unparsable or neither image/jpeg nor image/png, the thumbnail handler
    answers with an error, creates and writes no file in the assets root
    and leaves the metadata store as it was; the error is 400 "Invalid
    media type" whenever the id, token, form, read, lookup and ownership
    checks before it pass. *)
Theorem thumbnail_rejects_media_type (cfg : apiConfig) (L : lib) (o : io)
    (r : request) (w : world) (f : form_file)
    (Hf : form_lookup o r "thumbnail" = Ok f) (Hmt : not_image_type L f) :
  let res := run (handlerUploadThumbnail cfg L o r) w in
  resp_status (fst res) <> 200%Z /\
  List.filter asset_write (w_log (snd res)) = List.filter asset_write (w_log w) /\
  w_db (snd res) = w_db w /\
  (thumbnail_passes_early_checks cfg L o r w ->
   fst res = Respond 400 (RError "Invalid media type")).
Proof.
  unfold not_image_type in Hmt. unfold_handler. split_branches; simpl;
    try rewrite !filter_app_singleton by reflexivity.
  all: try (split; [discriminate | split; [reflexivity | split; [reflexivity|]]];
            let H := fresh "H" in intros H; refute_early H).
  all: exfalso; injection Hf as ->;
    match goal with
    | H : ParseMediaType _ _ = Some _, H' : (_ || _)%bool = true |- _ =>
        rewrite H in Hmt; destruct (image_type_cases _ H') as [-> | ->]
    end; destruct Hmt; congruence.
Qed.

(** C4: a text/plain thumbnail for a video the store does not hold is
    answered with 500, not with 400. *)
Lemma thumbnail_media_type_not_always_400 :
  not_image_type (lib0 (probe_of [])) (thumb_file "text/plain") /\
  resp_status (fst (run (handlerUploadThumbnail cfg0 (lib0 (probe_of [])) io0
                           (req0 "user1" 100 "text/plain"))
                        (mkWorld ∅ []))) = 500%Z.
Proof. split; [simpl; split; discriminate | vm_compute; reflexivity]. Qed.

(** C5 (amended): when the media type of the uploaded video is
    unparsable or other than video/mp4, the video handler answers with an
    error, creates no temporary file and leaves the metadata store as it
    was; the error is 400 "Invalid media type" whenever the id, token,
    lookup, ownership and form checks before it pass. *)
Theorem video_rejects_media_type (cfg : apiConfig) (L : lib) (o : io)
    (r : request) (w : world) (f : form_file)
    (Hf : form_lookup o r "video" = Ok f)
    (Hmt : ParseMediaType L (ff_ContentType f) <> Some "video/mp4") :
  let res := run (handlerUploadVideo cfg L o r) w in
  resp_status (fst res) <> 200%Z /\
  List.filter temp_create (w_log (snd res)) = List.filter temp_create (w_log w) /\
  w_db (snd res) = w_db w /\
  (video_passes_early_checks cfg L o r w ->
   fst res = Respond 400 (RError "Invalid media type")).
Proof.
  unfold_handler. split_branches; simpl;
    try rewrite !filter_app_singleton by reflexivity.
  all: try (split; [discriminate | split; [reflexivity | split; [reflexivity|]]];
            let H := fresh "H" in intros H; refute_early H).
  all: exfalso;
    match goal with
    | H : ParseMediaType _ _ = Some _, H' : String.eqb _ "video/mp4" = true |- _ =>
        apply mp4_type in H'; subst
    end; congruence.
Qed.

(** C5: an image/png upload to the video handler for a video the store
    does not hold is answered with 500, not with 400. *)
Lemma video_media_type_not_always_400 :
  ParseMediaType (lib0 (probe_of [])) (ff_ContentType (video_file "image/png"))
    <> Some "video/mp4" /\
  resp_status (fst (run (handlerUploadVideo cfg0 (lib0 (probe_of [])) io0
                           (req0 "user1" 100 "image/png"))
                        (mkWorld ∅ []))) = 500%Z.
Proof. split; [simpl; discriminate | vm_compute; reflexivity]. Qed.

(* ------------------------------------------------------------------ *)
(** ** Aspect ratio and storage prefix *)

Lemma getVideoAspectRatio_streams (L : lib) (o : io) (path : string) (w : world)
    (streams : list probe_stream) :
  probe_streams L o path = Some streams ->
  getVideoAspectRatio L o path w =
    (inr (match streams with
          | [] => Err "No streams found"
          | s :: _ => Ok (DisplayAspectRatio s)
          end),
     mkWorld (w_db w) (w_log w ++ [EvExec (ffprobe_argv path)])%list).
Proof.
  unfold probe_streams, getVideoAspectRatio, exec_Run, emit, bind, ret.
  simpl. destruct (run_err _); [discriminate|].
  destruct (json_Unmarshal L _) as [j|]; simpl; [|discriminate].
  intros H. injection H as <-. reflexivity.
Qed.

(** The handler only appends to the event log. *)
Lemma video_log_extends (cfg : apiConfig) (L : lib) (o : io) (r : request)
    (w : world) :
  exists new, w_log (snd (run (handlerUploadVideo cfg L o r) w)) = (w_log w ++ new)%list.
Proof.
  unfold_handler. split_branches; cbn [fst snd w_log w_db]; rewrite <- ?app_assoc;
    first [exists []; rewrite app_nil_r; reflexivity | eexists; reflexivity].
Qed.

(** Rewrite the probe hypothesis with the outcomes a branch fixed. *)
Ltac use_probe Hp :=
  unfold probe_streams in Hp; cbn zeta in Hp;
  repeat match goal with
         | H : run_err _ = _ |- _ => rewrite H in Hp
         | H : json_Unmarshal _ _ = _ |- _ => rewrite H in Hp
         end;
  simpl in Hp;
  repeat match goal with
         | H : decode_streams _ = _ |- _ => rewrite H in Hp
         end;
  try discriminate Hp.

(** Every object the video handler puts in S3 is keyed
    [<prefix>/<name>.mp4], with the prefix chosen from the display aspect
    ratio of the first stream ffprobe reports. *)
Lemma video_put_key_prefix (cfg : apiConfig) (L : lib) (o : io) (r : request)
    (w : world) (s : probe_stream) (rest : list probe_stream)
    (Hp : probe_streams L o (io_temp_name o) = Some (s :: rest)) :
  exists new,
    w_log (snd (run (handlerUploadVideo cfg L o r) w)) = (w_log w ++ new)%list /\
    forall e k, In e new -> put_key e = Some k ->
      exists name, k = aspect_prefix (DisplayAspectRatio s) ++ "/" ++ name ++ ".mp4".
Proof.
  unfold_handler. split_branches; cbn [fst snd w_log w_db]; rewrite <- ?app_assoc.
  all: first [ exists []; rewrite app_nil_r; split; [reflexivity | intros ? ? []]
             | eexists; split; [reflexivity|] ].
  all: intros e k Hin Hk; simpl in Hin;
    repeat match goal with H : _ \/ _ |- _ => destruct H as [<- | H] end;
    try contradiction; simpl in Hk; try discriminate Hk.
  all: use_probe Hp; injection Hp as -> ->; injection Hk as <-; eexists; reflexivity.
Qed.

(** When ffprobe reports no stream, the video handler puts nothing in S3,
    leaves the metadata store as it was and, once it gets as far as the
    probe, answers 500. *)
Lemma video_zero_streams (cfg : apiConfig) (L : lib) (o : io) (r : request)
    (w : world) (Hp : probe_streams L o (io_temp_name o) = Some []) :
  let res := run (handlerUploadVideo cfg L o r) w in
  (exists new, w_log (snd res) = (w_log w ++ new)%list /\
               forall e, In e new -> put_key e = None) /\
  w_db (snd res) = w_db w /\
  (video_reaches_probe cfg L o r w ->
   fst res = Respond 500 (RError "Couldn't get video aspect ratio")).
Proof.
  unfold_handler. split_branches; cbn [fst snd w_log w_db]; rewrite <- ?app_assoc.
  all: try (use_probe Hp; fail).
  all: split; [ first [ exists []; rewrite app_nil_r; split; [reflexivity | intros ? []]
                      | eexists; split; [reflexivity|] ] | ].
  all: try (intros e Hin; simpl in Hin;
            repeat match goal with H : _ \/ _ |- _ => destruct H as [<- | H] end;
            first [contradiction | reflexivity]).
  all: split; [reflexivity|].
  all: let H := fresh "H" in intros H; destruct H as [H (f & Hf & Hmt & Ht & Hc)];
       try reflexivity; try refute_early H; congruence.
Qed.

(** C1: the video handler classifies the display aspect ratio of the
    first stream ffprobe reports: an S3 key it writes is
    [landscape/<name>.mp4] for "16:9", [portrait/<name>.mp4] for "9:16"
    and [other/<name>.mp4] for any other non-empty value; when ffprobe
    reports no stream, nothing is put in S3, the record is unchanged and
    the handler answers 500 once it reaches the probe. *)
Theorem video_aspect_ratio_classification (cfg : apiConfig) (L : lib) (o : io)
    (r : request) (w : world) (streams : list probe_stream)
    (Hp : probe_streams L o (io_temp_name o) = Some streams) :
  let res := run (handlerUploadVideo cfg L o r) w in
  match streams with
  | [] =>
      (exists new, w_log (snd res) = (w_log w ++ new)%list /\
                   forall e, In e new -> put_key e = None) /\
      w_db (snd res) = w_db w /\
      (video_reaches_probe cfg L o r w ->
       fst res = Respond 500 (RError "Couldn't get video aspect ratio"))
  | s :: _ =>
      exists new, w_log (snd res) = (w_log w ++ new)%list /\
        forall e k, In e new -> put_key e = Some k ->
          exists name,
            (DisplayAspectRatio s = "16:9" -> k = "landscape/" ++ name ++ ".mp4") /\
            (DisplayAspectRatio s = "9:16" -> k = "portrait/" ++ name ++ ".mp4") /\
            (DisplayAspectRatio s <> "" -> DisplayAspectRatio s <> "16:9" ->
             DisplayAspectRatio s <> "9:16" -> k = "other/" ++ name ++ ".mp4")
  end.
Proof.
  destruct streams as [|s rest].
  - exact (video_zero_streams cfg L o r w Hp).
  - destruct (video_put_key_prefix cfg L o r w s rest Hp) as (new & Hlog & Hkey).
    exists new. split; [exact Hlog|].
    intros e k Hin Hk. destruct (Hkey e k Hin Hk) as [name ->].
    exists name. unfold aspect_prefix.
    repeat split; intros Hd; try intros Hd'; try intros Hd''.
    + rewrite Hd. reflexivity.
    + rewrite Hd. reflexivity.
    + apply String.eqb_neq in Hd', Hd''. rewrite Hd', Hd''. reflexivity.
Qed.

(** C10 (amended): when the first stream ffprobe reports has no
    display_aspect_ratio, or an empty one, [getVideoAspectRatio] returns
    the empty string without error and every S3 key the video handler
    writes is [other/<name>.mp4]. Only the first stream is read: for any
    first stream and any later streams (with absent, empty or other
    ratios), the result is the first stream's ratio (empty when absent)
    and the keys are under [aspect_prefix] of it, so a later stream's
    absent or empty ratio has no effect. *)
Theorem empty_aspect_ratio_goes_to_other (cfg : apiConfig) (L : lib) (o : io)
    (r : request) (w : world) :
  (forall (s : json_stream) (rest : list json_stream),
    json_Unmarshal L (ex_stdout (io_exec o (ffprobe_argv (io_temp_name o))))
      = Some (mkJsonProbe (Some (s :: rest))) ->
    ex_outcome (io_exec o (ffprobe_argv (io_temp_name o))) = Exited 0 ->
    js_display_aspect_ratio s = None \/ js_display_aspect_ratio s = Some "" ->
    fst (getVideoAspectRatio L o (io_temp_name o) w) = inr (Ok "") /\
    exists new,
      w_log (snd (run (handlerUploadVideo cfg L o r) w)) = (w_log w ++ new)%list /\
      forall e k, In e new -> put_key e = Some k ->
        exists name, k = "other/" ++ name ++ ".mp4") /\
  (forall (s : json_stream) (rest : list json_stream),
    json_Unmarshal L (ex_stdout (io_exec o (ffprobe_argv (io_temp_name o))))
      = Some (mkJsonProbe (Some (s :: rest))) ->
    ex_outcome (io_exec o (ffprobe_argv (io_temp_name o))) = Exited 0 ->
    fst (getVideoAspectRatio L o (io_temp_name o) w) =
      inr (Ok (default "" (js_display_aspect_ratio s))) /\
    exists new,
      w_log (snd (run (handlerUploadVideo cfg L o r) w)) = (w_log w ++ new)%list /\
      forall e k, In e new -> put_key e = Some k ->
        exists name,
          k = aspect_prefix (default "" (js_display_aspect_ratio s)) ++ "/" ++ name ++ ".mp4").
Proof.
  assert (Gen : forall (s : json_stream) (rest : list json_stream),
    json_Unmarshal L (ex_stdout (io_exec o (ffprobe_argv (io_temp_name o))))
      = Some (mkJsonProbe (Some (s :: rest))) ->
    ex_outcome (io_exec o (ffprobe_argv (io_temp_name o))) = Exited 0 ->
    fst (getVideoAspectRatio L o (io_temp_name o) w) =
      inr (Ok (default "" (js_display_aspect_ratio s))) /\
    exists new,
      w_log (snd (run (handlerUploadVideo cfg L o r) w)) = (w_log w ++ new)%list /\
      forall e k, In e new -> put_key e = Some k ->
        exists name,
          k = aspect_prefix (default "" (js_display_aspect_ratio s)) ++ "/" ++ name ++ ".mp4").
  { intros s rest Hj Hx.
    assert (Hp : probe_streams L o (io_temp_name o) =
                 Some (decode_stream s :: map decode_stream rest)).
    { unfold probe_streams. cbn zeta. rewrite Hx. simpl. rewrite Hj. reflexivity. }
    split.
    - rewrite (getVideoAspectRatio_streams L o _ w _ Hp). reflexivity.
    - destruct (video_put_key_prefix cfg L o r w _ _ Hp) as (new & Hlog & Hkey).
      exists new. split; [exact Hlog|]. exact Hkey. }
  split; [|exact Gen].
  intros s rest Hj Hx Hs.
  assert (Hd : default "" (js_display_aspect_ratio s) = "").
  { destruct Hs as [-> | ->]; reflexivity. }
  destruct (Gen s rest Hj Hx) as [Hr (new & Hlog & Hkey)].
  rewrite Hd in Hr, Hkey. split; [exact Hr|].
  exists new. split; [exact Hlog|]. exact Hkey.
Qed.

(** C10: a probe whose second stream has no display_aspect_ratio yields
    the first stream's "16:9", not the empty string, and the landscape
    prefix. *)
Lemma missing_aspect_ratio_not_first_stream :
  let L := lib0 (probe_of [Some "16:9"; None]) in
  probe_streams L io0 "/tmp/video.mp4123" =
    Some [mkProbeStream 1920 1080 "16:9"; mkProbeStream 1920 1080 ""] /\
  fst (getVideoAspectRatio L io0 "/tmp/video.mp4123" world0) = inr (Ok "16:9") /\
  aspect_prefix "16:9" = "landscape".
Proof. vm_compute. repeat split. Qed.

(* ------------------------------------------------------------------ *)
(** ** Fast-start normalisation *)

Lemma run_err_false (o : exec_outcome) : run_err o = false <-> o = Exited 0.
Proof.
  split.
  - destruct o as [[| p | p] |]; simpl; congruence.
  - intros ->. reflexivity.
Qed.

(** C8 (amended): [processVideoForFastStart] runs ffmpeg once with
    [path ++ ".processing"] as its output argument, returns that path
    exactly when ffmpeg runs and exits with status zero, and returns an
    error otherwise: on a non-zero exit status or when ffmpeg cannot be
    started. *)
Theorem fast_start_result (o : io) (path : string) (w : world) :
  let argv := ffmpeg_argv path (path ++ ".processing") in
  let res := processVideoForFastStart o path w in
  last argv = Some (path ++ ".processing") /\
  snd res = mkWorld (w_db w) (w_log w ++ [EvExec argv])%list /\
  (fst res = inr (Ok (path ++ ".processing")) <->
   ex_outcome (io_exec o argv) = Exited 0) /\
  ((exists msg, fst res = inr (Err msg)) <->
   ex_outcome (io_exec o argv) <> Exited 0).
Proof.
  cbv zeta. unfold processVideoForFastStart, exec_Run, emit, bind, ret.
  cbn [fst snd w_db w_log]. split; [reflexivity | split; [reflexivity|]].
  rewrite <- run_err_false.
  destruct (run_err _); split; split.
  - discriminate.
  - discriminate.
  - intros _ Hf. discriminate.
  - intros _. eexists. reflexivity.
  - reflexivity.
  - reflexivity.
  - intros [msg Hm]. discriminate.
  - intros H. contradiction.
Qed.

(** C8: when ffmpeg cannot be started it exits with no status at all, and
    the sub-routine still returns an error. *)
Lemma fast_start_error_without_exit :
  let o := mkIO false true true true (fun _ => Byte.x2a) true None true
             true "/tmp/video.mp4123" true (fun _ => mkExecResult StartFailed "")
             true true in
  (forall code, ex_outcome (io_exec o (ffmpeg_argv "/tmp/video.mp4123"
                  "/tmp/video.mp4123.processing")) <> Exited code) /\
  fst (processVideoForFastStart o "/tmp/video.mp4123" world0) = inr (Err "exit status").
Proof. split; [intros code; discriminate | reflexivity]. Qed.

(* ------------------------------------------------------------------ *)
(** ** Generated names *)

Lemma all_chars_app (p : ascii -> bool) (s1 s2 : string) :
  all_chars p (s1 ++ s2) = all_chars p s1 && all_chars p s2.
Proof.
  induction s1 as [| c s1 IH]; simpl; [reflexivity|].
  rewrite IH. apply andb_assoc.
Qed.

Lemma all_chars_get (p : ascii -> bool) (s : string) (n : nat) (c : ascii) :
  all_chars p s = true -> String.get n s = Some c -> p c = true.
Proof.
  revert n. induction s as [| c' s IH]; intros n Hs Hg; [discriminate|].
  simpl in Hs. apply andb_true_iff in Hs as [Hc Hs].
  destruct n as [| n]; simpl in Hg.
  - injection Hg as <-. exact Hc.
  - exact (IH n Hs Hg).
Qed.

Lemma all_chars_weaken (p q : ascii -> bool) (s : string) :
  (forall c, p c = true -> q c = true) ->
  all_chars p s = true -> all_chars q s = true.
Proof.
  intros Hpq. induction s as [| c s IH]; simpl; [reflexivity|].
  rewrite !andb_true_iff. intros [Hc Hs]. auto.
Qed.

Lemma b64_char_safe (i : Z) : all_chars url_safe_char (b64_char i) = true.
Proof.
  unfold b64_char. destruct (String.get _ b64_alphabet) as [c|] eqn:E;
    [| reflexivity].
  simpl. rewrite (all_chars_get url_safe_char b64_alphabet (Z.to_nat i) c);
    [reflexivity | vm_compute; reflexivity | exact E].
Qed.

Lemma b64_group_safe (n : Z) (k : nat) :
  all_chars url_safe_char (b64_group n k) = true.
Proof.
  unfold b64_group.
  generalize (firstn (4 - k) [Z.land (Z.shiftr n 18) 63; Z.land (Z.shiftr n 12) 63;
                              Z.land (Z.shiftr n 6) 63; Z.land n 63]).
  intros l. induction l as [| i l IH]; simpl; [reflexivity|].
  rewrite all_chars_app, b64_char_safe, IH. reflexivity.
Qed.

(** The unpadded encoding uses the URL-safe alphabet only; the padded one
    adds '=' at most. *)
Lemma b64_encode_safe (pad : bool) (l : list Byte.byte) :
  all_chars (fun c => url_safe_char c || (pad && Ascii.eqb c "=")) (b64_encode pad l) = true.
Proof.
  assert (Hw : forall s, all_chars url_safe_char s = true ->
     all_chars (fun c => url_safe_char c || (pad && Ascii.eqb c "=")) s = true).
  { intros s. apply all_chars_weaken. intros c ->. reflexivity. }
  assert (Hpad : forall s, all_chars (fun c => Ascii.eqb c "=") s = true ->
     all_chars (fun c => url_safe_char c || (pad && Ascii.eqb c "=")) (if pad then s else "") = true).
  { intros s Hs. destruct pad; [|reflexivity].
    revert Hs. apply all_chars_weaken. intros c ->. apply orb_true_r. }
  remember (length l) as n eqn:Hn. revert l Hn.
  induction n as [n IH] using lt_wf_ind. intros l Hn.
  destruct l as [| b0 [| b1 [| b2 rest]]]; simpl b64_encode; [reflexivity | | |].
  - rewrite all_chars_app, Hw by apply b64_group_safe. apply (Hpad "=="). reflexivity.
  - rewrite all_chars_app, Hw by apply b64_group_safe. apply (Hpad "="). reflexivity.
  - rewrite all_chars_app, Hw by apply b64_group_safe. simpl.
    apply (IH (length rest)); [simpl in Hn; lia | reflexivity].
Qed.

Lemma rand_Read_length (o : io) (n : nat) (rnd : list Byte.byte) :
  rand_Read o n = Ok rnd -> length rnd = n.
Proof.
  unfold rand_Read. destruct (io_rand_ok o); [|discriminate].
  intros H. injection H as <-. rewrite length_map, length_seq. reflexivity.
Qed.

Lemma form_lookup_with_filename (o : io) (r : request) (n field : string) :
  form_lookup o (with_filename n r) field =
  match form_lookup o r field with
  | Ok f => Ok (mkFormFile n (ff_ContentType f) (ff_data f))
  | Err m => Err m
  end.
Proof.
  unfold form_lookup, with_filename. simpl. destruct (io_form_ok o); [|reflexivity].
  induction (req_files r) as [| [k f] fs IH]; simpl; [reflexivity|].
  destruct (String.eqb k field); [reflexivity | exact IH].
Qed.

(** Reduce [In e log'] for a log the run extended to the new event it is. *)
Ltac new_event Hin Hnot :=
  rewrite ?in_app_iff in Hin; simpl in Hin;
  repeat match goal with H : _ \/ _ |- _ => destruct H as [H | H] end;
  try contradiction; try discriminate.

(** The file the thumbnail handler creates is named from 32 random bytes
    and the subtype of the validated media type. *)
Lemma thumbnail_created_name (cfg : apiConfig) (L : lib) (o : io) (r : request)
    (w : world) (p : string) :
  In (EvCreate p) (w_log (snd (run (handlerUploadThumbnail cfg L o r) w))) ->
  ~ In (EvCreate p) (w_log w) ->
  exists rnd f ext,
    rand_Read o 32 = Ok rnd /\ form_lookup o r "thumbnail" = Ok f /\
    ParseMediaType L (ff_ContentType f) = Some ("image/" ++ ext) /\
    (ext = "jpeg" \/ ext = "png") /\
    p = filepath_Join (cfg_assetsRoot cfg)
          (RawURLEncoding_EncodeToString rnd ++ "." ++ ext).
Proof.
  unfold_handler. split_branches; cbn [fst snd w_log w_db]; intros Hin Hnot;
    new_event Hin Hnot.
  all: injection Hin as <-;
    match goal with
    | H : (_ || _)%bool = true |- _ => destruct (image_type_cases _ H) as [-> | ->]
    end;
    first [ do 2 eexists; exists "jpeg"; split; [reflexivity|]; split; [reflexivity|];
            split; [eassumption | split; [left | ]; reflexivity]
          | do 2 eexists; exists "png"; split; [reflexivity|]; split; [reflexivity|];
            split; [eassumption | split; [right | ]; reflexivity] ].
Qed.

(** The key the video handler puts in S3 is named from 32 random bytes
    and the subtype of the validated media type. *)
Lemma video_put_name (cfg : apiConfig) (L : lib) (o : io) (r : request)
    (w : world) (b k ct : string) :
  In (EvPut b k ct) (w_log (snd (run (handlerUploadVideo cfg L o r) w))) ->
  ~ In (EvPut b k ct) (w_log w) ->
  exists rnd prefix,
    rand_Read o 32 = Ok rnd /\ ct = "video/mp4" /\
    k = prefix ++ "/" ++ URLEncoding_EncodeToString rnd ++ "." ++
        nth 1 (strings_Split ct "/") "".
Proof.
  unfold_handler. split_branches; cbn [fst snd w_log w_db]; intros Hin Hnot;
    new_event Hin Hnot.
  all: injection Hin as <- <- <-;
    match goal with
    | H : String.eqb _ "video/mp4" = true |- _ => apply mp4_type in H; subst
    end; do 2 eexists; split; [reflexivity | split; reflexivity].
Qed.

(** Neither handler reads the client's file name. *)
Lemma thumbnail_ignores_filename (cfg : apiConfig) (L : lib) (o : io)
    (r : request) (w : world) (n : string) :
  run (handlerUploadThumbnail cfg L o (with_filename n r)) w =
  run (handlerUploadThumbnail cfg L o r) w.
Proof.
  unfold_handler. rewrite form_lookup_with_filename.
  unfold ReadAll. destruct (form_lookup o r "thumbnail"); reflexivity.
Qed.

Lemma video_ignores_filename (cfg : apiConfig) (L : lib) (o : io)
    (r : request) (w : world) (n : string) :
  run (handlerUploadVideo cfg L o (with_filename n r)) w =
  run (handlerUploadVideo cfg L o r) w.
Proof.
  unfold_handler. rewrite form_lookup_with_filename.
  unfold with_filename. cbn [req_videoID req_Authorization req_Body].
  repeat (cbn beta iota zeta delta [ff_ContentType];
          match goal with
          | |- context [match ?x with _ => _ end] =>
              lazymatch x with
              | context [match _ with _ => _ end] => fail
              | _ => let E := fresh "E" in destruct x eqn:E
              end
          end); reflexivity.
Qed.

(** C6: both handlers name what they store from [rand.Read] into a
    32-byte buffer, encoded with the URL-safe base64 alphabet (unpadded
    for thumbnails, '='-padded for videos), followed by "." and the
    subtype of the validated media type (jpeg or png; mp4); a request
    whose uploaded files carry other client file names runs identically. *)
Theorem generated_storage_names (cfg : apiConfig) (L : lib) (o : io)
    (r : request) (w : world) :
  (forall p,
     In (EvCreate p) (w_log (snd (run (handlerUploadThumbnail cfg L o r) w))) ->
     ~ In (EvCreate p) (w_log w) ->
     exists rnd f ext name,
       rand_Read o 32 = Ok rnd /\ length rnd = 32%nat /\
       name = RawURLEncoding_EncodeToString rnd /\
       all_chars url_safe_char name = true /\
       form_lookup o r "thumbnail" = Ok f /\
       ParseMediaType L (ff_ContentType f) = Some ("image/" ++ ext) /\
       (ext = "jpeg" \/ ext = "png") /\
       p = filepath_Join (cfg_assetsRoot cfg) (name ++ "." ++ ext)) /\
  (forall b k ct,
     In (EvPut b k ct) (w_log (snd (run (handlerUploadVideo cfg L o r) w))) ->
     ~ In (EvPut b k ct) (w_log w) ->
     exists rnd prefix name,
       rand_Read o 32 = Ok rnd /\ length rnd = 32%nat /\
       name = URLEncoding_EncodeToString rnd /\
       all_chars (fun c => url_safe_char c || Ascii.eqb c "=") name = true /\
       ct = "video/mp4" /\
       k = prefix ++ "/" ++ name ++ "." ++ nth 1 (strings_Split ct "/") "") /\
  (forall n, run (handlerUploadThumbnail cfg L o (with_filename n r)) w =
             run (handlerUploadThumbnail cfg L o r) w) /\
  (forall n, run (handlerUploadVideo cfg L o (with_filename n r)) w =
             run (handlerUploadVideo cfg L o r) w).
Proof.
  split; [| split; [| split]].
  - intros p Hin Hnot.
    destruct (thumbnail_created_name cfg L o r w p Hin Hnot)
      as (rnd & f & ext & Hr & Hf & Hm & He & ->).
    exists rnd, f, ext, (RawURLEncoding_EncodeToString rnd).
    repeat split; auto.
    + exact (rand_Read_length o 32 rnd Hr).
    + refine (all_chars_weaken _ _ _ _ (b64_encode_safe false rnd)).
      intros c. simpl. rewrite orb_false_r. auto.
  - intros b k ct Hin Hnot.
    destruct (video_put_name cfg L o r w b k ct Hin Hnot) as (rnd & prefix & Hr & Hct & ->).
    exists rnd, prefix, (URLEncoding_EncodeToString rnd).
    repeat split; auto.
    + exact (rand_Read_length o 32 rnd Hr).
    + exact (b64_encode_safe true rnd).
  - apply thumbnail_ignores_filename.
  - apply video_ignores_filename.
Qed.

(* ------------------------------------------------------------------ *)
(** ** Request size cap *)

(** C2: [http.MaxBytesReader] builds a reader capped at 1 GiB, but the
    handler keeps reading [r.Body]: on a body of 1 GiB + 1 byte the form
    parser consumes every byte and the upload succeeds. *)
Theorem video_body_not_capped :
  let r := req0 "user1" (Z.shiftl 1 30 + 1) "video/mp4" in
  let res := run (handlerUploadVideo cfg0 (lib0 (probe_of [Some "16:9"])) io0 r) world0 in
  readable (MaxBytesReader (req_Body r) (Z.shiftl 1 30)) = Z.shiftl 1 30 /\
  In (EvBodyRead (Z.shiftl 1 30 + 1)) (w_log (snd res)) /\
  resp_status (fst res) = 200%Z.
Proof. vm_compute. split; [reflexivity | split; [left; reflexivity | reflexivity]]. Qed.

(* ------------------------------------------------------------------ *)
(** ** Thumbnail URL *)

(** C3 (amended): after a successful thumbnail upload the record written
    back carries [http://localhost:<port>/assets/<name>.<ext>], the host
    being the fixed string localhost and the port the configured one. *)
Theorem thumbnail_url_localhost (cfg : apiConfig) (L : lib) (o : io)
    (r : request) (w : world)
    (Hok : resp_status (fst (run (handlerUploadThumbnail cfg L o r) w)) = 200%Z) :
  exists v rnd ext,
    w_db (snd (run (handlerUploadThumbnail cfg L o r) w)) = <[v_ID v := v]> (w_db w) /\
    rand_Read o 32 = Ok rnd /\ (ext = "jpeg" \/ ext = "png") /\
    v_ThumbnailURL v =
      Some ("http://localhost:" ++ cfg_port cfg ++ "/assets/" ++
            RawURLEncoding_EncodeToString rnd ++ "." ++ ext).
Proof.
  revert Hok. unfold_handler. split_branches; cbn [fst snd w_db resp_status];
    intros Hok; try discriminate Hok.
  all: match goal with
       | H : (_ || _)%bool = true |- _ => destruct (image_type_cases _ H) as [-> | ->]
       end;
    first [ do 2 eexists; exists "jpeg"; split; [reflexivity|]; split; [reflexivity|];
            split; [left; reflexivity | reflexivity]
          | do 2 eexists; exists "png"; split; [reflexivity|]; split; [reflexivity|];
            split; [right; reflexivity | reflexivity] ].
Qed.

(** C3: served from tubely.example.com, the handler still stores a
    localhost URL, not the one built from that host and the port. *)
Lemma thumbnail_url_not_configured_host :
  let res := run (handlerUploadThumbnail cfg0 (lib0 (probe_of [])) io0
                    (req0 "user1" 100 "image/png")) world0 in
  let fileName := RawURLEncoding_EncodeToString (map (fun _ => Byte.x2a) (seq 0 32))
                  ++ ".png" in
  option_map v_ThumbnailURL (w_db (snd res) !! "vid1") =
    Some (Some (spec_thumbnail_URL "localhost" (cfg_port cfg0) fileName)) /\
  option_map v_ThumbnailURL (w_db (snd res) !! "vid1") <>
    Some (Some (spec_thumbnail_URL "tubely.example.com" (cfg_port cfg0) fileName)).
Proof. vm_compute. split; [reflexivity | discriminate]. Qed.

(* ------------------------------------------------------------------ *)
(** ** Error paths and the metadata store *)

(** Every run of the thumbnail handler that answers anything but 200
    leaves the metadata store as it was. *)
Lemma thumbnail_error_keeps_store (cfg : apiConfig) (L : lib) (o : io)
    (r : request) (w : world) :
  resp_status (fst (run (handlerUploadThumbnail cfg L o r) w)) <> 200%Z ->
  w_db (snd (run (handlerUploadThumbnail cfg L o r) w)) = w_db w.
Proof.
  unfold_handler. split_branches; cbn [fst snd w_db resp_status]; intros H;
    first [reflexivity | contradiction].
Qed.

(** Same for the video handler. *)
Lemma video_error_keeps_store (cfg : apiConfig) (L : lib) (o : io)
    (r : request) (w : world) :
  resp_status (fst (run (handlerUploadVideo cfg L o r) w)) <> 200%Z ->
  w_db (snd (run (handlerUploadVideo cfg L o r) w)) = w_db w.
Proof.
  unfold_handler. split_branches; cbn [fst snd w_db resp_status]; intros H;
    first [reflexivity | contradiction].
Qed.

(** C7: when [io.Copy] into the thumbnail file fails after 0 of the 4
    bytes, the thumbnail handler does not stop: it answers 200 and
    writes the new Thumbnail URL into the record. *)
Theorem thumbnail_failed_write_updates_record :
  let res := run (handlerUploadThumbnail cfg0 (lib0 (probe_of [])) io_short_write
                    (req0 "user1" 100 "image/png")) world0 in
  fst (io_Copy io_short_write "" (ff_data (thumb_file "image/png")) world0)
    = inr (Err "short write") /\
  In (EvWrite ("assets/" ++ RawURLEncoding_EncodeToString
                 (map (fun _ => Byte.x2a) (seq 0 32)) ++ ".png") 0) (w_log (snd res)) /\
  fst res = Respond 200 RJsonEmpty /\
  option_map v_ThumbnailURL (w_db (snd res) !! "vid1") <> Some None.
Proof.
  vm_compute. split; [reflexivity | split; [right; right; left; reflexivity |
                                            split; [reflexivity | discriminate]]].
Qed.

(** C9: some requests get 200 and a new Thumbnail URL although
    ParseMultipartForm reported an error and the bytes never reached the
    disk: the handler drops both errors. *)
Theorem thumbnail_success_despite_dropped_errors :
  exists (cfg : apiConfig) (L : lib) (o : io) (r : request) (w : world) (f : form_file),
    io_parse_form_err o = true /\
    form_lookup o r "thumbnail" = Ok f /\
    (forall p n, In (EvWrite p n) (w_log (snd (run (handlerUploadThumbnail cfg L o r) w))) ->
                 (n < Z.of_nat (length (ff_data f)))%Z) /\
    fst (run (handlerUploadThumbnail cfg L o r) w) = Respond 200 RJsonEmpty /\
    (exists v url, w_db w !! req_videoID r = Some v /\ v_ThumbnailURL v = None /\
       w_db (snd (run (handlerUploadThumbnail cfg L o r) w)) !! req_videoID r =
         Some (set_ThumbnailURL v url)).
Proof.
  exists cfg0, (lib0 (probe_of [])), io_short_write, (req0 "user1" 100 "image/png"),
    world0, (thumb_file "image/png").
  split; [reflexivity|]. split; [reflexivity|]. split.
  - intros p n Hin. vm_compute in Hin.
    repeat destruct Hin as [Hin | Hin]; try discriminate; try contradiction.
    injection Hin as _ <-. vm_compute. reflexivity.
  - split; [vm_compute; reflexivity|].
    eexists _, _. split; [reflexivity|]. split; [reflexivity|]. vm_compute. reflexivity.
Qed.

(* ------------------------------------------------------------------ *)
(** ** Witnesses: the theorems applied at concrete requests *)

Lemma thumbnail_rejects_media_type_witness :
  form_lookup io0 (req0 "user1" 100 "text/plain") "thumbnail" = Ok (thumb_file "text/plain") /\
  not_image_type (lib0 (probe_of [])) (thumb_file "text/plain") /\
  fst (run (handlerUploadThumbnail cfg0 (lib0 (probe_of [])) io0
              (req0 "user1" 100 "text/plain")) world0)
    = Respond 400 (RError "Invalid media type").
Proof.
  assert (Hf : form_lookup io0 (req0 "user1" 100 "text/plain") "thumbnail"
               = Ok (thumb_file "text/plain")) by reflexivity.
  assert (Hm : not_image_type (lib0 (probe_of [])) (thumb_file "text/plain"))
    by (simpl; split; discriminate).
  split; [exact Hf | split; [exact Hm |]].
  destruct (thumbnail_rejects_media_type cfg0 (lib0 (probe_of [])) io0
              (req0 "user1" 100 "text/plain") world0 _ Hf Hm) as (_ & _ & _ & H400).
  apply H400. exists "vid1", "user1", "user1", (thumb_file "text/plain"), video0.
  repeat split; reflexivity.
Defined.

Lemma video_rejects_media_type_witness :
  form_lookup io0 (req0 "user1" 100 "image/png") "video" = Ok (video_file "image/png") /\
  ParseMediaType (lib0 (probe_of [])) (ff_ContentType (video_file "image/png"))
    <> Some "video/mp4" /\
  fst (run (handlerUploadVideo cfg0 (lib0 (probe_of [])) io0
              (req0 "user1" 100 "image/png")) world0)
    = Respond 400 (RError "Invalid media type").
Proof.
  assert (Hf : form_lookup io0 (req0 "user1" 100 "image/png") "video"
               = Ok (video_file "image/png")) by reflexivity.
  assert (Hm : ParseMediaType (lib0 (probe_of [])) (ff_ContentType (video_file "image/png"))
               <> Some "video/mp4") by (simpl; discriminate).
  split; [exact Hf | split; [exact Hm |]].
  destruct (video_rejects_media_type cfg0 (lib0 (probe_of [])) io0
              (req0 "user1" 100 "image/png") world0 _ Hf Hm) as (_ & _ & _ & H400).
  apply H400. exists "vid1", "user1", "user1", video0.
  repeat split; reflexivity.
Defined.

Lemma video_aspect_ratio_classification_witness :
  probe_streams (lib0 (probe_of [Some "16:9"])) io0 "/tmp/video.mp4123"
    = Some [mkProbeStream 1920 1080 "16:9"] /\
  exists new,
    w_log (snd (run (handlerUploadVideo cfg0 (lib0 (probe_of [Some "16:9"])) io0
                      (req0 "user1" 100 "video/mp4")) world0)) = (w_log world0 ++ new)%list /\
    forall e k, In e new -> put_key e = Some k ->
      exists name, k = "landscape/" ++ name ++ ".mp4".
Proof.
  assert (Hp : probe_streams (lib0 (probe_of [Some "16:9"])) io0 (io_temp_name io0)
               = Some [mkProbeStream 1920 1080 "16:9"]) by reflexivity.
  split; [exact Hp|].
  destruct (video_aspect_ratio_classification cfg0 (lib0 (probe_of [Some "16:9"])) io0
              (req0 "user1" 100 "video/mp4") world0 _ Hp) as (new & Hlog & Hk).
  exists new. split; [exact Hlog|].
  intros e k Hin Hke. destruct (Hk e k Hin Hke) as (name & H169 & _ & _).
  exists name. apply H169. reflexivity.
Defined.

Lemma empty_aspect_ratio_goes_to_other_witness :
  let L := lib0 (probe_of [None]) in
  let L' := lib0 (probe_of [Some "16:9"; None]) in
  json_Unmarshal L (ex_stdout (io_exec io0 (ffprobe_argv (io_temp_name io0))))
    = Some (mkJsonProbe (Some [mkJsonStream (Some 1920%Z) (Some 1080%Z) None])) /\
  ex_outcome (io_exec io0 (ffprobe_argv (io_temp_name io0))) = Exited 0 /\
  fst (getVideoAspectRatio L io0 (io_temp_name io0) world0) = inr (Ok "") /\
  fst (getVideoAspectRatio L' io0 (io_temp_name io0) world0) = inr (Ok "16:9").
Proof.
  cbv zeta.
  assert (Hj : json_Unmarshal (lib0 (probe_of [None]))
                 (ex_stdout (io_exec io0 (ffprobe_argv (io_temp_name io0))))
               = Some (mkJsonProbe (Some [mkJsonStream (Some 1920%Z) (Some 1080%Z) None])))
    by reflexivity.
  assert (Hj' : json_Unmarshal (lib0 (probe_of [Some "16:9"; None]))
                 (ex_stdout (io_exec io0 (ffprobe_argv (io_temp_name io0))))
               = Some (mkJsonProbe (Some [mkJsonStream (Some 1920%Z) (Some 1080%Z) (Some "16:9");
                                          mkJsonStream (Some 1920%Z) (Some 1080%Z) None])))
    by reflexivity.
  assert (Hx : ex_outcome (io_exec io0 (ffprobe_argv (io_temp_name io0))) = Exited 0)
    by reflexivity.
  split; [exact Hj | split; [exact Hx | split]].
  - exact (proj1 (proj1 (empty_aspect_ratio_goes_to_other cfg0 _ io0
                    (req0 "user1" 100 "video/mp4") world0) _ _ Hj Hx (or_introl eq_refl))).
  - exact (proj1 (proj2 (empty_aspect_ratio_goes_to_other cfg0 _ io0
                    (req0 "user1" 100 "video/mp4") world0) _ _ Hj' Hx)).
Defined.

Lemma thumbnail_url_localhost_witness :
  resp_status (fst (run (handlerUploadThumbnail cfg0 (lib0 (probe_of [])) io0
                           (req0 "user1" 100 "image/png")) world0)) = 200%Z /\
  exists v rnd ext,
    rand_Read io0 32 = Ok rnd /\
    v_ThumbnailURL v = Some ("http://localhost:8091/assets/" ++
                             RawURLEncoding_EncodeToString rnd ++ "." ++ ext).
Proof.
  assert (Hok : resp_status (fst (run (handlerUploadThumbnail cfg0 (lib0 (probe_of [])) io0
                                        (req0 "user1" 100 "image/png")) world0)) = 200%Z)
    by (vm_compute; reflexivity).
  split; [exact Hok|].
  destruct (thumbnail_url_localhost cfg0 _ io0 _ world0 Hok)
    as (v & rnd & ext & _ & Hr & _ & Hu).
  exists v, rnd, ext. split; [exact Hr | exact Hu].
Defined.

(* ------------------------------------------------------------------ *)
(** ** Authentication and ownership *)

(** A request whose bearer token is missing or does not validate is
    answered 400 or 401 by both handlers, with no effect at all: no byte
    of the body is read, nothing is written, the store is unchanged. *)
Theorem unauthenticated_no_effect (cfg : apiConfig) (L : lib) (o : io)
    (r : request) (w : world)
    (Hauth : forall t, GetBearerToken L (req_Authorization r) = Some t ->
                       ValidateJWT L t (cfg_jwtSecret cfg) = None) :
  snd (run (handlerUploadThumbnail cfg L o r) w) = w /\
  (resp_status (fst (run (handlerUploadThumbnail cfg L o r) w)) = 400%Z \/
   resp_status (fst (run (handlerUploadThumbnail cfg L o r) w)) = 401%Z) /\
  snd (run (handlerUploadVideo cfg L o r) w) = w /\
  (resp_status (fst (run (handlerUploadVideo cfg L o r) w)) = 400%Z \/
   resp_status (fst (run (handlerUploadVideo cfg L o r) w)) = 401%Z).
Proof.
  unfold_handler.
  destruct (uuid_Parse L (req_videoID r)); cbn beta iota;
    [| repeat split; auto].
  destruct (GetBearerToken L (req_Authorization r)) as [t|] eqn:Et; cbn beta iota;
    [| repeat split; auto].
  rewrite (Hauth t eq_refl). cbn beta iota. repeat split; auto.
Qed.

(** The thumbnail handler reads the whole request body before it checks
    ownership: a valid user who does not own the video gets 401 "Not
    your video" after the body was consumed, and no file is written and
    the store is unchanged. *)
Theorem thumbnail_non_owner (cfg : apiConfig) (L : lib) (o : io) (r : request)
    (w : world) (videoID token userID : string) (f : form_file) (v : video)
    (Hid : uuid_Parse L (req_videoID r) = Some videoID)
    (Htok : GetBearerToken L (req_Authorization r) = Some token)
    (Hjwt : ValidateJWT L token (cfg_jwtSecret cfg) = Some userID)
    (Hf : form_lookup o r "thumbnail" = Ok f)
    (Hread : io_read_ok o = true)
    (Hv : w_db w !! videoID = Some v)
    (Hown : v_UserID v <> userID) :
  run (handlerUploadThumbnail cfg L o r) w =
    (Respond 401 (RError "Not your video"),
     mkWorld (w_db w) (w_log w ++ [EvBodyRead (readable (req_Body r))])%list).
Proof.
  apply String.eqb_neq in Hown.
  unfold_handler. rewrite Hid, Htok, Hjwt. cbn beta iota.
  rewrite Hf. cbn beta iota. rewrite Hread. cbn beta iota zeta.
  cbn [w_db]. rewrite Hv. cbn beta iota. rewrite Hown. reflexivity.
Qed.

(** The video handler checks ownership before it touches the body: a
    valid user who does not own the video gets 401 "User does not own
    video" with no effect at all. *)
Theorem video_non_owner (cfg : apiConfig) (L : lib) (o : io) (r : request)
    (w : world) (videoID token userID : string) (v : video)
    (Hid : uuid_Parse L (req_videoID r) = Some videoID)
    (Htok : GetBearerToken L (req_Authorization r) = Some token)
    (Hjwt : ValidateJWT L token (cfg_jwtSecret cfg) = Some userID)
    (Hv : w_db w !! videoID = Some v)
    (Hown : v_UserID v <> userID) :
  run (handlerUploadVideo cfg L o r) w =
    (Respond 401 (RError "User does not own video"), w).
Proof.
  apply String.eqb_neq in Hown.
  unfold_handler. rewrite Hid, Htok, Hjwt. cbn beta iota.
  rewrite Hv. cbn beta iota. rewrite Hown. reflexivity.
Qed.

(** Library functions under which no token validates. *)
Definition lib_bad_jwt : lib :=
  mkLib (fun s => Some s) (fun h => Some h) (fun _ _ => None)
    (fun s => Some s) (fun _ => None).

Lemma unauthenticated_no_effect_witness :
  snd (run (handlerUploadThumbnail cfg0 lib_bad_jwt io0 (req0 "user1" 100 "image/png")) world0) = world0 /\
  snd (run (handlerUploadVideo cfg0 lib_bad_jwt io0 (req0 "user1" 100 "video/mp4")) world0) = world0.
Proof.
  split.
  - apply (unauthenticated_no_effect cfg0 lib_bad_jwt io0 (req0 "user1" 100 "image/png") world0).
    intros t _. reflexivity.
  - apply (unauthenticated_no_effect cfg0 lib_bad_jwt io0 (req0 "user1" 100 "video/mp4") world0).
    intros t _. reflexivity.
Defined.

Lemma thumbnail_non_owner_witness :
  run (handlerUploadThumbnail cfg0 (lib0 (probe_of [])) io0 (req0 "user2" 100 "image/png")) world0 =
    (Respond 401 (RError "Not your video"),
     mkWorld (w_db world0) (w_log world0 ++ [EvBodyRead 100])%list).
Proof.
  apply (thumbnail_non_owner cfg0 (lib0 (probe_of [])) io0 (req0 "user2" 100 "image/png")
           world0 "vid1" "user2" "user2" (thumb_file "image/png") video0).
  - reflexivity.
  - reflexivity.
  - reflexivity.
  - vm_compute. reflexivity.
  - reflexivity.
  - vm_compute. reflexivity.
  - cbv. discriminate.
Defined.

Lemma video_non_owner_witness :
  run (handlerUploadVideo cfg0 (lib0 (probe_of [])) io0 (req0 "user2" 100 "video/mp4")) world0 =
    (Respond 401 (RError "User does not own video"), world0).
Proof.
  apply (video_non_owner cfg0 (lib0 (probe_of [])) io0 (req0 "user2" 100 "video/mp4")
           world0 "vid1" "user2" "user2" video0).
  - reflexivity.
  - reflexivity.
  - reflexivity.
  - vm_compute. reflexivity.
  - cbv. discriminate.
Defined.

(* ------------------------------------------------------------------ *)
(** ** Successful uploads *)

(** A 200 answer of the thumbnail handler has an empty JSON body; the
    store then holds the record fetched for the request's id with only
    its Thumbnail URL replaced, and that URL names a file the handler
    created in the assets root. *)
Theorem thumbnail_success_state (cfg : apiConfig) (L : lib) (o : io)
    (r : request) (w : world) :
  let res := run (handlerUploadThumbnail cfg L o r) w in
  resp_status (fst res) = 200%Z ->
  exists videoID v fileName,
    uuid_Parse L (req_videoID r) = Some videoID /\
    w_db w !! videoID = Some v /\
    fst res = Respond 200 RJsonEmpty /\
    w_db (snd res) =
      <[v_ID v := set_ThumbnailURL v (thumbnail_URL cfg fileName)]> (w_db w) /\
    In (EvCreate (filepath_Join (cfg_assetsRoot cfg) fileName)) (w_log (snd res)).
Proof.
  unfold_handler. split_branches; cbn [fst snd w_log w_db resp_status];
    intros H; try discriminate H.
  all: cbn [w_db] in *;
    do 3 eexists; split; [reflexivity|]; split; [eassumption|];
    split; [reflexivity|]; split; [reflexivity|];
    rewrite !in_app_iff; simpl; auto.
Qed.

(** A 200 answer of the video handler returns the record it stores: the
    record fetched for the request's id with only its Video URL
    replaced, by the CloudFront distribution followed by the key of an
    object the handler put in the configured bucket as video/mp4. *)
Theorem video_success_state (cfg : apiConfig) (L : lib) (o : io)
    (r : request) (w : world) :
  let res := run (handlerUploadVideo cfg L o r) w in
  resp_status (fst res) = 200%Z ->
  exists videoID v key,
    uuid_Parse L (req_videoID r) = Some videoID /\
    w_db w !! videoID = Some v /\
    fst res = Respond 200 (RJsonVideo
                (set_VideoURL v (cfg_s3CfDistribution cfg ++ "/" ++ key))) /\
    w_db (snd res) =
      <[v_ID v := set_VideoURL v (cfg_s3CfDistribution cfg ++ "/" ++ key)]> (w_db w) /\
    In (EvPut (cfg_s3Bucket cfg) key "video/mp4") (w_log (snd res)).
Proof.
  unfold_handler. split_branches; cbn [fst snd w_log w_db resp_status];
    intros H; try discriminate H.
  match goal with
  | H : String.eqb _ "video/mp4" = true |- _ => apply mp4_type in H; subst
  end.
  cbn [w_db] in *.
  do 3 eexists. split; [reflexivity|]. split; [eassumption|].
  split; [reflexivity|]. split; [reflexivity|].
  rewrite !in_app_iff. simpl. auto.
Qed.

(** Every object the video handler puts in S3 is the end of one fixed
    pipeline: the body is read, one temporary file is created, ffprobe
    and then ffmpeg (fast start, into [<temp>.processing]) run on it and
    both exit with status zero, and the put goes to the configured
    bucket as video/mp4. Nothing else happens in that run. *)
Theorem video_upload_pipeline (cfg : apiConfig) (L : lib) (o : io)
    (r : request) (w : world) :
  let t := io_temp_name o in
  exists new,
    w_log (snd (run (handlerUploadVideo cfg L o r) w)) = (w_log w ++ new)%list /\
    forall b k ct, In (EvPut b k ct) new ->
      new = [EvBodyRead (readable (req_Body r)); EvCreateTemp t;
             EvExec (ffprobe_argv t); EvExec (ffmpeg_argv t (t ++ ".processing"));
             EvPut b k ct] /\
      run_err (ex_outcome (io_exec o (ffprobe_argv t))) = false /\
      run_err (ex_outcome (io_exec o (ffmpeg_argv t (t ++ ".processing")))) = false /\
      b = cfg_s3Bucket cfg /\ ct = "video/mp4".
Proof.
  unfold_handler. split_branches; cbn [fst snd w_log w_db]; rewrite <- ?app_assoc.
  all: first [ exists []; rewrite app_nil_r; split; [reflexivity | intros ? ? ? []]
             | eexists; split; [reflexivity|] ].
  all: intros b k ct Hin; simpl in Hin;
    repeat match goal with H : _ \/ _ |- _ => destruct H as [H | H] end;
    try contradiction; try discriminate.
  all: injection Hin as <- <- <-;
    match goal with
    | H : String.eqb _ "video/mp4" = true |- _ => apply mp4_type in H; subst
    end; repeat split; assumption.
Qed.

(* ------------------------------------------------------------------ *)
(** ** Failed metadata updates *)

(** When the final metadata update fails, the thumbnail handler answers
    500 but the thumbnail file it created stays in the assets root: the
    store is unchanged and nothing removes the file. *)
Theorem thumbnail_update_failure_orphan (cfg : apiConfig) (L : lib) (o : io)
    (r : request) (w : world)
    (H500 : fst (run (handlerUploadThumbnail cfg L o r) w) =
              Respond 500 (RError "Couldn't update video")) :
  w_db (snd (run (handlerUploadThumbnail cfg L o r) w)) = w_db w /\
  exists new p,
    w_log (snd (run (handlerUploadThumbnail cfg L o r) w)) = (w_log w ++ new)%list /\
    In (EvCreate p) new.
Proof.
  revert H500. unfold_handler. split_branches; cbn [fst snd w_log w_db];
    intros H; try discriminate H.
  all: split; [reflexivity|]; rewrite <- !app_assoc;
    do 2 eexists; split; [reflexivity|]; simpl; auto.
Qed.

(** When the final metadata update fails, the video handler answers 500
    but the object it put in S3 stays there: the store is unchanged and
    nothing deletes the object. *)
Theorem video_update_failure_orphan (cfg : apiConfig) (L : lib) (o : io)
    (r : request) (w : world)
    (H500 : fst (run (handlerUploadVideo cfg L o r) w) =
              Respond 500 (RError "Couldn't update video")) :
  w_db (snd (run (handlerUploadVideo cfg L o r) w)) = w_db w /\
  exists new k,
    w_log (snd (run (handlerUploadVideo cfg L o r) w)) = (w_log w ++ new)%list /\
    In (EvPut (cfg_s3Bucket cfg) k "video/mp4") new.
Proof.
  revert H500. unfold_handler. split_branches; cbn [fst snd w_log w_db];
    intros H; try discriminate H.
  match goal with
  | H : String.eqb _ "video/mp4" = true |- _ => apply mp4_type in H; subst
  end.
  split; [reflexivity|]. rewrite <- !app_assoc.
  do 2 eexists. split; [reflexivity|]. simpl. auto 10.
Qed.

(** I/O outcomes where every call succeeds but the final metadata
    update. *)
Definition io_no_update : io :=
  mkIO false true true true (fun _ => Byte.x2a) true None false
    true "/tmp/video.mp4123" true (fun _ => mkExecResult (Exited 0) "{}") true true.

Lemma thumbnail_success_state_witness :
  resp_status (fst (run (handlerUploadThumbnail cfg0 (lib0 (probe_of [])) io0
                          (req0 "user1" 100 "image/png")) world0)) = 200%Z /\
  exists videoID v fileName,
    uuid_Parse (lib0 (probe_of [])) "vid1" = Some videoID /\
    w_db world0 !! videoID = Some v /\
    fst (run (handlerUploadThumbnail cfg0 (lib0 (probe_of [])) io0
               (req0 "user1" 100 "image/png")) world0) = Respond 200 RJsonEmpty /\
    w_db (snd (run (handlerUploadThumbnail cfg0 (lib0 (probe_of [])) io0
                     (req0 "user1" 100 "image/png")) world0)) =
      <[v_ID v := set_ThumbnailURL v (thumbnail_URL cfg0 fileName)]> (w_db world0) /\
    In (EvCreate (filepath_Join "assets" fileName))
       (w_log (snd (run (handlerUploadThumbnail cfg0 (lib0 (probe_of [])) io0
                          (req0 "user1" 100 "image/png")) world0))).
Proof.
  assert (H : resp_status (fst (run (handlerUploadThumbnail cfg0 (lib0 (probe_of [])) io0
                          (req0 "user1" 100 "image/png")) world0)) = 200%Z)
    by (vm_compute; reflexivity).
  split; [exact H|].
  exact (thumbnail_success_state cfg0 (lib0 (probe_of [])) io0
           (req0 "user1" 100 "image/png") world0 H).
Defined.

Lemma video_success_state_witness :
  resp_status (fst (run (handlerUploadVideo cfg0 (lib0 (probe_of [Some "16:9"])) io0
                          (req0 "user1" 100 "video/mp4")) world0)) = 200%Z /\
  exists videoID v key,
    uuid_Parse (lib0 (probe_of [Some "16:9"])) "vid1" = Some videoID /\
    w_db world0 !! videoID = Some v /\
    fst (run (handlerUploadVideo cfg0 (lib0 (probe_of [Some "16:9"])) io0
               (req0 "user1" 100 "video/mp4")) world0) =
      Respond 200 (RJsonVideo
        (set_VideoURL v ("https://d1.cloudfront.net" ++ "/" ++ key))) /\
    w_db (snd (run (handlerUploadVideo cfg0 (lib0 (probe_of [Some "16:9"])) io0
                     (req0 "user1" 100 "video/mp4")) world0)) =
      <[v_ID v := set_VideoURL v ("https://d1.cloudfront.net" ++ "/" ++ key)]>
        (w_db world0) /\
    In (EvPut "tubely-bucket" key "video/mp4")
       (w_log (snd (run (handlerUploadVideo cfg0 (lib0 (probe_of [Some "16:9"])) io0
                          (req0 "user1" 100 "video/mp4")) world0))).
Proof.
  assert (H : resp_status (fst (run (handlerUploadVideo cfg0 (lib0 (probe_of [Some "16:9"])) io0
                          (req0 "user1" 100 "video/mp4")) world0)) = 200%Z)
    by (vm_compute; reflexivity).
  split; [exact H|].
  exact (video_success_state cfg0 (lib0 (probe_of [Some "16:9"])) io0
           (req0 "user1" 100 "video/mp4") world0 H).
Defined.

Lemma thumbnail_update_failure_orphan_witness :
  w_db (snd (run (handlerUploadThumbnail cfg0 (lib0 (probe_of [])) io_no_update
                   (req0 "user1" 100 "image/png")) world0)) = w_db world0 /\
  exists new p,
    w_log (snd (run (handlerUploadThumbnail cfg0 (lib0 (probe_of [])) io_no_update
                      (req0 "user1" 100 "image/png")) world0)) = (w_log world0 ++ new)%list /\
    In (EvCreate p) new.
Proof.
  apply (thumbnail_update_failure_orphan cfg0 (lib0 (probe_of [])) io_no_update
           (req0 "user1" 100 "image/png") world0).
  vm_compute. reflexivity.
Defined.

Lemma video_update_failure_orphan_witness :
  w_db (snd (run (handlerUploadVideo cfg0 (lib0 (probe_of [Some "16:9"])) io_no_update
                   (req0 "user1" 100 "video/mp4")) world0)) = w_db world0 /\
  exists new k,
    w_log (snd (run (handlerUploadVideo cfg0 (lib0 (probe_of [Some "16:9"])) io_no_update
                      (req0 "user1" 100 "video/mp4")) world0)) = (w_log world0 ++ new)%list /\
    In (EvPut "tubely-bucket" k "video/mp4") new.
Proof.
  apply (video_update_failure_orphan cfg0 (lib0 (probe_of [Some "16:9"])) io_no_update
           (req0 "user1" 100 "video/mp4") world0).
  vm_compute. reflexivity.
Defined.

(** A request whose thumbnail upload fails before the handler reaches
    the store: its media type is not an image. *)
Lemma thumbnail_error_keeps_store_witness :
  resp_status (fst (run (handlerUploadThumbnail cfg0 (lib0 (probe_of [])) io0
                          (req0 "user1" 100 "text/plain")) world0)) <> 200%Z /\
  w_db (snd (run (handlerUploadThumbnail cfg0 (lib0 (probe_of [])) io0
                   (req0 "user1" 100 "text/plain")) world0)) = w_db world0.
Proof.
  assert (H : resp_status (fst (run (handlerUploadThumbnail cfg0 (lib0 (probe_of [])) io0
                          (req0 "user1" 100 "text/plain")) world0)) <> 200%Z)
    by (vm_compute; discriminate).
  split; [exact H|].
  exact (thumbnail_error_keeps_store cfg0 (lib0 (probe_of [])) io0
           (req0 "user1" 100 "text/plain") world0 H).
Defined.

(** A video upload that fails after the S3 put: the update fails. *)
Lemma video_error_keeps_store_witness :
  resp_status (fst (run (handlerUploadVideo cfg0 (lib0 (probe_of [Some "16:9"])) io_no_update
                          (req0 "user1" 100 "video/mp4")) world0)) <> 200%Z /\
  w_db (snd (run (handlerUploadVideo cfg0 (lib0 (probe_of [Some "16:9"])) io_no_update
                   (req0 "user1" 100 "video/mp4")) world0)) = w_db world0.
Proof.
  assert (H : resp_status (fst (run (handlerUploadVideo cfg0 (lib0 (probe_of [Some "16:9"]))
                          io_no_update (req0 "user1" 100 "video/mp4")) world0)) <> 200%Z)
    by (vm_compute; discriminate).
  split; [exact H|].
  exact (video_error_keeps_store cfg0 (lib0 (probe_of [Some "16:9"])) io_no_update
           (req0 "user1" 100 "video/mp4") world0 H).
Defined.

(* ------------------------------------------------------------------ *)
(** ** The base64 encoder *)

Lemma str_length_app (s1 s2 : string) :
  String.length (s1 ++ s2) = String.length s1 + String.length s2.
Proof. induction s1 as [|c s1 IH]; simpl; auto. Qed.

Lemma str_app_cancel (a1 a2 r1 r2 : string) :
  String.length a1 = String.length a2 -> (a1 ++ r1)%string = (a2 ++ r2)%string ->
  a1 = a2 /\ r1 = r2.
Proof.
  revert a2. induction a1 as [|c1 a1 IH]; intros [|c2 a2] Hl H; simpl in *;
    try discriminate; auto.
  injection Hl as Hl. injection H as -> H. destruct (IH a2 Hl H) as [-> ->]. auto.
Qed.

Lemma str_single_app (c : ascii) (s : string) : (String c "" ++ s)%string = String c s.
Proof. reflexivity. Qed.

Lemma b64_char_single (i : Z) : exists c, b64_char i = String c EmptyString.
Proof. unfold b64_char. destruct (String.get _ _); eauto. Qed.

Lemma b64_chars_length (l : list Z) :
  String.length (fold_right String.append "" (map b64_char l)) = length l.
Proof.
  induction l as [|i l IH]; simpl; [reflexivity|].
  destruct (b64_char_single i) as [c ->]. rewrite str_single_app. simpl.
  rewrite IH. reflexivity.
Qed.

(** The four sextets of a 24-bit group, most significant first. *)
Definition sextets (n : Z) : list Z :=
  [Z.land (Z.shiftr n 18) 63; Z.land (Z.shiftr n 12) 63;
   Z.land (Z.shiftr n 6) 63; Z.land n 63].

Lemma b64_group_sextets (n : Z) (k : nat) :
  b64_group n k = fold_right String.append "" (map b64_char (firstn (4 - k) (sextets n))).
Proof. reflexivity. Qed.

Lemma b64_group_length (n : Z) (k : nat) :
  String.length (b64_group n k) = 4 - k.
Proof.
  rewrite b64_group_sextets, b64_chars_length, length_firstn. simpl. lia.
Qed.

Lemma b64_char_inj_check :
  forallb (fun x => forallb (fun y => negb (String.eqb (b64_char x) (b64_char y)) || Z.eqb x y)
             (map Z.of_nat (seq 0 64)))
    (map Z.of_nat (seq 0 64)) = true.
Proof. vm_compute. reflexivity. Qed.

Lemma in_range64 (x : Z) : (0 <= x < 64)%Z -> In x (map Z.of_nat (seq 0 64)).
Proof.
  intros H. apply in_map_iff. exists (Z.to_nat x). split; [lia|]. apply in_seq. lia.
Qed.

Lemma b64_char_inj (x y : Z) :
  (0 <= x < 64)%Z -> (0 <= y < 64)%Z -> b64_char x = b64_char y -> x = y.
Proof.
  intros Hx Hy H. pose proof b64_char_inj_check as C.
  rewrite forallb_forall in C. specialize (C x (in_range64 x Hx)).
  rewrite forallb_forall in C. specialize (C y (in_range64 y Hy)).
  rewrite H, String.eqb_refl in C. apply Z.eqb_eq. exact C.
Qed.

Lemma b64_chars_inj (l1 l2 : list Z) :
  Forall (fun x => 0 <= x < 64)%Z l1 -> Forall (fun x => 0 <= x < 64)%Z l2 ->
  fold_right String.append "" (map b64_char l1) =
  fold_right String.append "" (map b64_char l2) ->
  l1 = l2.
Proof.
  revert l2. induction l1 as [|x l1 IH]; intros [|y l2] H1 H2 H; simpl in H.
  - reflexivity.
  - destruct (b64_char_single y) as [c Hc]. rewrite Hc in H. discriminate.
  - destruct (b64_char_single x) as [c Hc]. rewrite Hc in H. discriminate.
  - apply Forall_cons_iff in H1 as [Hx H1]. apply Forall_cons_iff in H2 as [Hy H2].
    destruct (b64_char_single x) as [c Hc]. destruct (b64_char_single y) as [d Hd].
    rewrite Hc, Hd, !str_single_app in H. injection H as -> H.
    f_equal; [apply b64_char_inj; congruence | apply IH; assumption].
Qed.

Lemma forall_firstn {A} (P : A -> Prop) (m : nat) (l : list A) :
  Forall P l -> Forall P (firstn m l).
Proof.
  revert l. induction m as [|m IH]; intros [|x l] H; simpl; auto.
  apply Forall_cons_iff in H as [Hx H]. constructor; auto.
Qed.

Lemma land63_range (x : Z) : (0 <= Z.land x 63 < 64)%Z.
Proof.
  change 63%Z with (Z.ones 6). rewrite Z.land_ones by lia.
  apply Z.mod_pos_bound. lia.
Qed.

Lemma b64_group_inj_sextets (n1 n2 : Z) (k : nat) :
  b64_group n1 k = b64_group n2 k ->
  firstn (4 - k) (sextets n1) = firstn (4 - k) (sextets n2).
Proof.
  rewrite !b64_group_sextets. apply b64_chars_inj; apply forall_firstn;
    repeat constructor; apply land63_range.
Qed.

Lemma sextet_bit (n s p : Z) :
  (0 <= s)%Z -> (s <= p < s + 6)%Z ->
  Z.testbit (Z.land (Z.shiftr n s) 63) (p - s) = Z.testbit n p.
Proof.
  intros Hs Hp. change 63%Z with (Z.ones 6). rewrite Z.land_ones by lia.
  rewrite Z.mod_pow2_bits_low by lia. rewrite Z.shiftr_spec by lia. f_equal. lia.
Qed.

(** Equal leading sextets fix the top bits of the group. *)
Lemma sextets_bits (n1 n2 : Z) (m : nat) (p : Z) :
  firstn m (sextets n1) = firstn m (sextets n2) ->
  (24 - 6 * Z.of_nat m <= p < 24)%Z -> (0 <= p)%Z ->
  Z.testbit n1 p = Z.testbit n2 p.
Proof.
  intros H Hp Hp0.
  assert (B : forall s, (0 <= s)%Z -> (s <= p < s + 6)%Z ->
              Z.land (Z.shiftr n1 s) 63 = Z.land (Z.shiftr n2 s) 63 ->
              Z.testbit n1 p = Z.testbit n2 p).
  { intros s Hs Hsp E. rewrite <- (sextet_bit n1 s p), <- (sextet_bit n2 s p) by lia.
    rewrite E. reflexivity. }
  unfold sextets in H.
  destruct m as [|[|[|[|m]]]]; simpl in H, Hp; [lia | ..];
    try injection H as H18; try injection H as H18 H12;
    try injection H as H18 H12 H6; try injection H as H18 H12 H6 H0.
  - apply (B 18%Z); [lia | lia | exact H18].
  - assert (p < 18 \/ 18 <= p)%Z as [Hc|Hc] by lia;
      [apply (B 12%Z) | apply (B 18%Z)]; first [lia | assumption].
  - assert (p < 12 \/ 12 <= p < 18 \/ 18 <= p)%Z as [Hc|[Hc|Hc]] by lia;
      [apply (B 6%Z) | apply (B 12%Z) | apply (B 18%Z)]; first [lia | assumption].
  - rewrite <- (Z.shiftr_0_r n1), <- (Z.shiftr_0_r n2) in H0.
    assert (p < 6 \/ 6 <= p < 12 \/ 12 <= p < 18 \/ 18 <= p)%Z as [Hc|[Hc|[Hc|Hc]]] by lia;
      [apply (B 0%Z) | apply (B 6%Z) | apply (B 12%Z) | apply (B 18%Z)];
      first [lia | assumption].
Qed.

Lemma byte_high (a j : Z) : (0 <= a < 256)%Z -> (8 <= j)%Z -> Z.testbit a j = false.
Proof.
  intros Ha Hj. destruct (Z.eq_dec a 0%Z) as [->|Hne]; [apply Z.bits_0|].
  apply Z.bits_above_log2; [lia|]. apply Z.log2_lt_pow2; [lia|].
  assert (2 ^ 8 <= 2 ^ j)%Z by (apply Z.pow_le_mono_r; lia).
  change (2 ^ 8)%Z with 256%Z in *. lia.
Qed.

Lemma bits8_eq (a1 a2 : Z) : (0 <= a1 < 256)%Z -> (0 <= a2 < 256)%Z ->
  (forall j, (0 <= j < 8)%Z -> Z.testbit a1 j = Z.testbit a2 j) -> a1 = a2.
Proof.
  intros H1 H2 H. apply Z.bits_inj'. intros j Hj.
  destruct (Z.lt_ge_cases j 8); [apply H; lia|].
  rewrite (byte_high a1 j), (byte_high a2 j) by lia. reflexivity.
Qed.

Lemma group_bits (a b c j : Z) :
  (0 <= a < 256)%Z -> (0 <= b < 256)%Z -> (0 <= c < 256)%Z -> (0 <= j < 8)%Z ->
  Z.testbit (Z.lor (Z.shiftl a 16) (Z.lor (Z.shiftl b 8) c)) (16 + j) = Z.testbit a j /\
  Z.testbit (Z.lor (Z.shiftl a 16) (Z.lor (Z.shiftl b 8) c)) (8 + j) = Z.testbit b j /\
  Z.testbit (Z.lor (Z.shiftl a 16) (Z.lor (Z.shiftl b 8) c)) j = Z.testbit c j.
Proof.
  intros Ha Hb Hc Hj. rewrite !Z.lor_spec, !Z.shiftl_spec by lia.
  split; [|split].
  - replace (16 + j - 16)%Z with j by lia.
    rewrite (byte_high b), (byte_high c) by lia. apply orb_false_r.
  - replace (8 + j - 8)%Z with j by lia.
    rewrite (Z.testbit_neg_r a), (byte_high c) by lia. simpl. apply orb_false_r.
  - rewrite (Z.testbit_neg_r a), (Z.testbit_neg_r b) by lia. reflexivity.
Qed.

(** Equal leading sextets of two groups of three bytes give equal bytes:
    two sextets fix the first byte, three the second, four the third. *)
Lemma group_inj (a1 b1 c1 a2 b2 c2 : Z) (m : nat) :
  (0 <= a1 < 256)%Z -> (0 <= b1 < 256)%Z -> (0 <= c1 < 256)%Z ->
  (0 <= a2 < 256)%Z -> (0 <= b2 < 256)%Z -> (0 <= c2 < 256)%Z ->
  firstn m (sextets (Z.lor (Z.shiftl a1 16) (Z.lor (Z.shiftl b1 8) c1))) =
  firstn m (sextets (Z.lor (Z.shiftl a2 16) (Z.lor (Z.shiftl b2 8) c2))) ->
  (2 <= m -> a1 = a2) /\ (3 <= m -> b1 = b2) /\ (4 <= m -> c1 = c2).
Proof.
  intros Ha1 Hb1 Hc1 Ha2 Hb2 Hc2 H.
  split; [|split]; intros Hm; apply bits8_eq; auto; intros j Hj;
    destruct (group_bits a1 b1 c1 j) as (E1a & E1b & E1c); auto;
    destruct (group_bits a2 b2 c2 j) as (E2a & E2b & E2c); auto.
  - rewrite <- E1a, <- E2a. apply (sextets_bits _ _ m); [exact H | lia | lia].
  - rewrite <- E1b, <- E2b. apply (sextets_bits _ _ m); [exact H | lia | lia].
  - rewrite <- E1c, <- E2c. apply (sextets_bits _ _ m); [exact H | lia | lia].
Qed.

Lemma bz_range (b : Byte.byte) : (0 <= bz b < 256)%Z.
Proof. unfold bz. pose proof (Byte.to_N_bounded b). lia. Qed.

Lemma bz_inj (b1 b2 : Byte.byte) : bz b1 = bz b2 -> b1 = b2.
Proof.
  unfold bz. intros H. apply N2Z.inj in H.
  pose proof (Byte.of_to_N b1) as E1. pose proof (Byte.of_to_N b2) as E2.
  rewrite H in E1. congruence.
Qed.

(** The encoder writes four characters for each group of three bytes:
    the unpadded encoding of [n] bytes has [ceil(4n/3)] characters, the
    padded one [4 * ceil(n/3)]. *)
Theorem b64_encode_length (l : list Byte.byte) :
  String.length (RawURLEncoding_EncodeToString l) = (4 * length l + 2) / 3 /\
  String.length (URLEncoding_EncodeToString l) = 4 * ((length l + 2) / 3).
Proof.
  unfold RawURLEncoding_EncodeToString, URLEncoding_EncodeToString.
  remember (length l) as n eqn:Hn. revert l Hn.
  induction n as [n IH] using lt_wf_ind. intros l Hn.
  destruct l as [| b0 [| b1 [| b2 rest]]]; simpl in Hn; subst n; cbn [b64_encode].
  - split; reflexivity.
  - rewrite !str_length_app, !b64_group_length. split; reflexivity.
  - rewrite !str_length_app, !b64_group_length. split; reflexivity.
  - rewrite !str_length_app, !b64_group_length.
    destruct (IH (length rest) ltac:(lia) rest eq_refl) as [H1 H2].
    rewrite H1, H2. split.
    + replace (4 * S (S (S (length rest))) + 2) with (4 * length rest + 2 + 4 * 3) by lia.
      rewrite Nat.div_add by lia. lia.
    + replace (S (S (S (length rest))) + 2) with (length rest + 2 + 1 * 3) by lia.
      rewrite Nat.div_add by lia. lia.
Qed.

(** On inputs of one length, both encodings are injective: two different
    random buffers of 32 bytes never give the same name. *)
Theorem b64_encode_injective (pad : bool) (l1 l2 : list Byte.byte)
    (Hlen : length l1 = length l2)
    (Henc : b64_encode pad l1 = b64_encode pad l2) : l1 = l2.
Proof.
  remember (length l1) as n eqn:Hn. revert l1 l2 Hn Hlen Henc.
  induction n as [n IH] using lt_wf_ind. intros l1 l2 Hn Hlen Henc.
  destruct l1 as [| a0 [| a1 [| a2 r1]]], l2 as [| c0 [| c1 [| c2 r2]]];
    simpl in Hn, Hlen; subst n; try discriminate Hlen; try reflexivity;
    cbn [b64_encode] in Henc;
    (apply str_app_cancel in Henc as [Hg Hr]; [|rewrite !b64_group_length; reflexivity]);
    apply b64_group_inj_sextets in Hg; simpl (4 - _) in Hg.
  - rewrite <- (Z.lor_0_r (Z.shiftl (bz a0) 16)), <- (Z.lor_0_r (Z.shiftl (bz c0) 16)),
      <- (Z.shiftl_0_l 8), <- (Z.lor_0_r (Z.shiftl 0 8)) in Hg.
    destruct (group_inj (bz a0) 0 0 (bz c0) 0 0 2) as [Ha _];
      try apply bz_range; try lia; [exact Hg|].
    f_equal. apply bz_inj, Ha. lia.
  - rewrite <- (Z.lor_0_r (Z.shiftl (bz a1) 8)), <- (Z.lor_0_r (Z.shiftl (bz c1) 8)) in Hg.
    destruct (group_inj (bz a0) (bz a1) 0 (bz c0) (bz c1) 0 3) as (Ha & Hb & _);
      try apply bz_range; try lia; [exact Hg|].
    f_equal; [|f_equal]; apply bz_inj; [apply Ha | apply Hb]; lia.
  - destruct (group_inj (bz a0) (bz a1) (bz a2) (bz c0) (bz c1) (bz c2) 4)
      as (Ha & Hb & Hc); try apply bz_range; [exact Hg|].
    f_equal; [|f_equal; [|f_equal]]; try (apply bz_inj; first [apply Ha | apply Hb | apply Hc]; lia).
    apply (IH (length r1)); [lia | reflexivity | lia | exact Hr].
Qed.

Lemma b64_encode_injective_witness :
  [Byte.x2a; Byte.x00] = [Byte.x2a; Byte.x00].
Proof.
  apply (b64_encode_injective true [Byte.x2a; Byte.x00] [Byte.x2a; Byte.x00]);
    reflexivity.
Defined.

(* ------------------------------------------------------------------ *)
(** ** ffprobe, event kinds, S3 folders, media type splitting *)

(** [getVideoAspectRatio] runs ffprobe once on its argument and changes
    nothing else; it succeeds exactly when ffprobe exits with status zero,
    prints valid JSON and reports at least one stream, with the ratio of
    the first stream. A failed run is an error, and so is output without
    a ["streams"] key, reported as "No streams found". *)
Theorem getVideoAspectRatio_outcomes (L : lib) (o : io) (path : string) (w : world) :
  snd (getVideoAspectRatio L o path w) =
    mkWorld (w_db w) (w_log w ++ [EvExec (ffprobe_argv path)])%list /\
  (forall s, fst (getVideoAspectRatio L o path w) = inr (Ok s) <->
     exists st rest, probe_streams L o path = Some (st :: rest) /\
                     DisplayAspectRatio st = s) /\
  (run_err (ex_outcome (io_exec o (ffprobe_argv path))) = true ->
     fst (getVideoAspectRatio L o path w) = inr (Err "exit status")) /\
  (forall j, run_err (ex_outcome (io_exec o (ffprobe_argv path))) = false ->
     json_Unmarshal L (ex_stdout (io_exec o (ffprobe_argv path))) = Some j ->
     jp_streams j = None ->
     fst (getVideoAspectRatio L o path w) = inr (Err "No streams found")).
Proof.
  unfold getVideoAspectRatio, probe_streams, exec_Run, emit, bind, ret. simpl.
  destruct (run_err _) eqn:Er; simpl.
  - split; [reflexivity|]. split; [|split; [reflexivity | intros; discriminate]].
    intros s; split; [discriminate | intros (? & ? & ? & _); discriminate].
  - destruct (json_Unmarshal _ _) as [j|] eqn:Ej; simpl.
    + split; [reflexivity|]. split; [|split; [discriminate|]].
      * intros s. destruct (decode_streams j) as [|st rest]; split.
        -- discriminate.
        -- intros (? & ? & H & _); discriminate.
        -- intros H. injection H as <-. eauto.
        -- intros (st' & rest' & H & <-). injection H as -> ->. reflexivity.
      * intros j' _ Hj Hs. injection Hj as <-. unfold decode_streams. rewrite Hs. reflexivity.
    + split; [reflexivity|]. split; [|split; [discriminate | intros; discriminate]].
      intros s; split; [discriminate | intros (? & ? & ? & _); discriminate].
Qed.




Lemma aspect_prefix_cases (s : string) :
  aspect_prefix s = "landscape" \/ aspect_prefix s = "portrait" \/
  aspect_prefix s = "other".
Proof.
  unfold aspect_prefix.
  destruct (String.eqb s "16:9"); [auto|]. destruct (String.eqb s "9:16"); auto.
Qed.

(** Whatever ffprobe reports, every object the video handler puts in S3
    lies in one of three folders: landscape, portrait or other. *)
Theorem video_put_key_folders (cfg : apiConfig) (L : lib) (o : io) (r : request)
    (w : world) :
  exists new,
    w_log (snd (run (handlerUploadVideo cfg L o r) w)) = (w_log w ++ new)%list /\
    forall e k, In e new -> put_key e = Some k ->
      exists folder name, k = folder ++ "/" ++ name ++ ".mp4" /\
        (folder = "landscape" \/ folder = "portrait" \/ folder = "other").
Proof.
  unfold_handler. split_branches; cbn [fst snd w_log w_db]; rewrite <- ?app_assoc.
  all: first [ exists []; rewrite app_nil_r; split; [reflexivity | intros ? ? []]
             | eexists; split; [reflexivity|] ].
  all: intros e k Hin Hk; simpl in Hin;
    repeat match goal with H : _ \/ _ |- _ => destruct H as [<- | H] end;
    try contradiction; simpl in Hk; try discriminate Hk.
  all: injection Hk as <-; do 2 eexists; split; [reflexivity | apply aspect_prefix_cases].
Qed.

(** A string free of the separator [sep]. *)
Definition no_sep (sep : ascii) (s : string) : bool :=
  all_chars (fun c => negb (Ascii.eqb c sep)) s.

Lemma str_cons_app (c : ascii) (a b : string) :
  (String c a ++ b)%string = String c (a ++ b).
Proof. reflexivity. Qed.

Lemma str_app_nil_r (s : string) : (s ++ "")%string = s.
Proof.
  induction s as [|c s IH]; [reflexivity|]. rewrite str_cons_app, IH. reflexivity.
Qed.

Lemma str_app_assoc (a b c : string) : (a ++ (b ++ c))%string = ((a ++ b) ++ c)%string.
Proof.
  induction a as [|x a IH]; [reflexivity|]. rewrite !str_cons_app, IH. reflexivity.
Qed.

Lemma split_acc_piece (sep : ascii) (a rest cur : string) :
  no_sep sep a = true ->
  split_acc sep (a ++ rest) cur = split_acc sep rest (cur ++ a).
Proof.
  revert cur. induction a as [|c a IH]; intros cur H.
  - simpl. rewrite str_app_nil_r. reflexivity.
  - unfold no_sep in H. simpl in H. apply andb_prop in H as [Hc H].
    apply negb_true_iff in Hc. rewrite str_cons_app. simpl. rewrite Hc. rewrite IH by exact H.
    rewrite <- str_app_assoc. reflexivity.
Qed.

(** [strings.Split] inverts [strings.Join] on pieces free of the
    separator. So the media types the thumbnail handler accepts split into
    exactly two parts, the second being "jpeg" or "png": the check
    [len(parts) != 2] never fails. *)
Theorem strings_Split_Join (sep : ascii) (parts : list string)
    (Hne : parts <> []) (Hp : forallb (no_sep sep) parts = true) :
  strings_Split (String.concat (String sep "") parts) sep = parts /\
  forall mt, (String.eqb mt "image/jpeg" || String.eqb mt "image/png")%bool = true ->
    length (strings_Split mt "/") = 2 /\
    (nth 1 (strings_Split mt "/") "" = "jpeg" \/ nth 1 (strings_Split mt "/") "" = "png").
Proof.
  split.
  - unfold strings_Split. induction parts as [|x parts IH]; [contradiction|].
    simpl in Hp. apply andb_prop in Hp as [Hx Hp].
    destruct parts as [|y parts].
    + simpl. rewrite <- (str_app_nil_r x) at 1. rewrite split_acc_piece by exact Hx.
      reflexivity.
    + change (String.concat (String sep "") (x :: y :: parts))
        with (x ++ (String sep "" ++ String.concat (String sep "") (y :: parts)))%string.
      rewrite split_acc_piece by exact Hx. simpl. rewrite Ascii.eqb_refl.
      f_equal. apply IH; [discriminate | exact Hp].
  - intros mt H. destruct (image_type_cases mt H) as [-> | ->]; split;
      first [reflexivity | left; reflexivity | right; reflexivity].
Qed.

Lemma strings_Split_Join_witness :
  strings_Split (String.concat "/" ["image"; "png"]) "/" = ["image"; "png"] /\
  forall mt, (String.eqb mt "image/jpeg" || String.eqb mt "image/png")%bool = true ->
    length (strings_Split mt "/") = 2 /\
    (nth 1 (strings_Split mt "/") "" = "jpeg" \/ nth 1 (strings_Split mt "/") "" = "png").
Proof.
  apply (strings_Split_Join "/" ["image"; "png"]).
  - discriminate.
  - vm_compute. reflexivity.
Defined.

(** The thumbnail handler writes only into the file it has just created,
    once, and never more bytes than the uploaded file holds. *)
Theorem thumbnail_write_follows_create (cfg : apiConfig) (L : lib) (o : io)
    (r : request) (w : world) :
  exists new,
    w_log (snd (run (handlerUploadThumbnail cfg L o r) w)) = (w_log w ++ new)%list /\
    forall p n, In (EvWrite p n) new ->
      exists f, form_lookup o r "thumbnail" = Ok f /\
        new = [EvBodyRead (readable (req_Body r)); EvCreate p; EvWrite p n] /\
        (n <= Z.of_nat (length (ff_data f)))%Z.
Proof.
  unfold_handler. split_branches; cbn [fst snd w_log w_db]; rewrite <- ?app_assoc.
  all: first [ exists []; rewrite app_nil_r; split; [reflexivity | intros ? ? []]
             | eexists; split; [reflexivity|] ].
  all: intros p n Hin; simpl in Hin;
    repeat match goal with H : _ \/ _ |- _ => destruct H as [H | H] end;
    try contradiction; try discriminate.
  all: injection Hin as <- <-; eexists; split; [reflexivity | split; [reflexivity | lia]].
Qed.
